(** * Selection tracking and unfocused-selection highlighting

    A shallow embedding of [src/obsidian/workspace-manager.ts] (the
    [WorkspaceManager] class: selection tracker, single-slot cache and
    context broadcaster) and of the CodeMirror 6 extension that keeps the
    selection highlighted while the editor is unfocused
    ([selectionHighlightField], [focusChangeHandler]).

    JavaScript numbers that hold offsets, lines and columns are integers
    ([Z]); strings are [string], one character standing for one UTF-16 code
    unit.  [console] output and the fire-and-forget debug-log write of
    [sendCurrentFileContext] have no influence on the values computed here
    and are left out. *)

From stdpp Require Import base option list gmap strings.
From Stdlib Require Import ZArith Lia Ascii String.

Local Open Scope Z_scope.

(** ** The CodeMirror 6 interface the code relies on

    [@codemirror/state] and [@codemirror/view] are libraries; only the
    operations the two source files call are described, following the
    library's documentation: a document is a sequence of lines, offsets are
    linear positions in the text with one position per line break. *)
Module CM.

(** [Text]: the lines of the document (a document has at least one line). *)
Definition Text := list string.

Definition strlen (s : string) : Z := Z.of_nat (String.length s).

(** [Text.length]: every line break counts for one position. *)
Fixpoint length (doc : Text) : Z :=
  match doc with
  | [] => 0
  | [s] => strlen s
  | s :: rest => strlen s + 1 + length rest
  end.

(** [Text.toString()]: the lines joined by line feeds. *)
Fixpoint toString (doc : Text) : string :=
  match doc with
  | [] => ""
  | [s] => s
  | s :: rest => s +:+ String "010"%char (toString rest)
  end.

(** [Text.sliceString(from, to)]: the text between two offsets, offsets
    beyond the document being clipped. *)
Definition sliceString (doc : Text) (from to : Z) : string :=
  substring (Z.to_nat from) (Z.to_nat (to - from)) (toString doc).

(** [Line]: what [Text.lineAt] answers: the offsets of the start and the
    end of the line, its 1-based number and its content. *)
Record Line := mkLine {
  line_from : Z;
  line_to : Z;
  number : Z;
  line_text : string
}.

(** The line search of [Text.lineAt]: walk the lines, keeping the number
    and the starting offset of the current one, and stop at the first line
    whose end is not before the target. *)
Fixpoint lineInner (text : Text) (target line offset : Z) : option Line :=
  match text with
  | [] => None
  | s :: rest =>
      let fin := offset + strlen s in
      if target <=? fin then Some (mkLine offset fin line s)
      else lineInner rest target (line + 1) (fin + 1)
  end.

(** [Text.lineAt(pos)]: [None] stands for the [RangeError] thrown when
    [pos] is outside the document. *)
Definition lineAt (doc : Text) (pos : Z) : option Line :=
  if (pos <? 0) || (length doc <? pos) then None
  else lineInner doc pos 1 0.

(** The offset at which the line of 0-based index [k] starts: the lengths
    of the lines before it, and one line break after each of them. *)
Fixpoint lineStart (doc : Text) (k : nat) : Z :=
  match k, doc with
  | S k', s :: rest => strlen s + 1 + lineStart rest k'
  | _, _ => 0
  end.

(** Offset [pos] is at column [a] of the line of index [k], whose content
    is [l]: the line contains the offset, and the column is the offset
    minus the offset at which the line starts. *)
Definition locates (doc : Text) (pos : Z) (k : nat) (l : string) (a : Z) : Prop :=
  doc !! k = Some l /\ 0 <= a <= strlen l /\ pos = lineStart doc k + a.

(** [SelectionRange] of CodeMirror: an anchor and a head; [from], [to] and
    [empty] are derived as the library does. *)
Record SelectionRange := mkRange { anchor : Z; head : Z }.

Definition from (r : SelectionRange) : Z := Z.min (anchor r) (head r).
Definition to (r : SelectionRange) : Z := Z.max (anchor r) (head r).
Definition empty (r : SelectionRange) : bool := from r =? to r.

(** [EditorState], reduced to [state.doc] and [state.selection.main]. *)
Record EditorState := mkState {
  doc : Text;
  main : SelectionRange
}.

(** [EditorView], reduced to [view.state]. *)
Record EditorView := mkView { state : EditorState }.

End CM.

(** ** The notification types of [../mcp/types] *)
Module Mcp.

(** Modelled from the spec: the declarations of [../mcp/types] are not
    part of the two source files; the records follow the outbound shape
    [{ jsonrpc, method, params: { text, filePath, fileUrl, selection:
    { start:{line,character}, end:{line,character}, isEmpty } } }]. *)
Record Position := mkPosition { line : Z; character : Z }.

Record SelectionRange := mkSelectionRange {
  start : Position;
  end_ : Position;
  isEmpty : bool
}.

Record SelectionChangedParams := mkParams {
  text : string;
  filePath : option string;
  fileUrl : option string;
  selection : SelectionRange
}.

Record McpNotification := mkNotification {
  jsonrpc : string;
  method : string;
  params : SelectionChangedParams
}.

End Mcp.

(** ** The Obsidian objects the manager reads *)
Module Obsidian.

Record EditorPosition := mkEditorPosition { line : Z; ch : Z }.

(** The argument of [editor.getCursor]: none (the head of the selection),
    ["from"] or ["to"]. *)
Inductive CursorSide := cursorHead | cursorFrom | cursorTo.

(** [Editor]: [cm] is [(editor as any).cm] together with its [state]:
    [None] when reading it throws; [getSelection] and [getCursor] are the
    answers of the plain accessors. *)
Record Editor := mkEditor {
  cm : option CM.EditorView;
  getSelection : string;
  getCursor : CursorSide -> EditorPosition
}.

(** A view of the workspace: whether it is an instance of [MarkdownView],
    and its [editor] property when it has one. *)
Record View := mkViewObj {
  isMarkdownView : bool;
  editor : option Editor
}.

Record TFile := mkTFile { path : string }.

(** Views are objects shared by reference: the workspace and the cache
    hold references into one store. *)
Definition ViewRef := nat.

(** The DOM as [isSelectionInEditableNote] sees it: an element is its
    class list; a node comes with the chain of its ancestor elements, from
    its parent up to the root. *)
Record Element := mkElement { classList : list string }.

Inductive Node :=
| ElementNode (self : Element) (ancestors : list Element)
| OtherNode (ancestors : list Element).

(** [window.getSelection()] when it is not null. *)
Record DomSelection := mkDomSelection {
  rangeCount : Z;
  anchorNode : option Node
}.

(** [App]: what the manager can observe of the host while it handles one
    event. [activeLeaf] is [workspace.activeLeaf?.view], [activeFile] is
    [workspace.getActiveFile()], [getBasePath] is
    [(vault.adapter as any).getBasePath?.()], [cwd] is [process.cwd()],
    [now] is [Date.now()], [windowSelection] is [window.getSelection()]. *)
Record App := mkApp {
  activeLeaf : option ViewRef;
  activeFile : option TFile;
  views : gmap nat View;
  getBasePath : option string;
  cwd : string;
  now : Z;
  windowSelection : option DomSelection
}.

(** [workspace.getActiveViewOfType(MarkdownView)]: the view of the active
    leaf when it is a [MarkdownView], [null] otherwise. *)
Definition getActiveViewOfType (app : App) : option (ViewRef * View) :=
  r ← activeLeaf app;
  v ← views app !! r;
  if isMarkdownView v then Some (r, v) else None.

(** [element.closest(selector)] for a class selector, on the chain that
    starts at the element itself: is there a match? *)
Definition closest (cls : string) (chain : list Element) : bool :=
  existsb (fun e => bool_decide (cls ∈ classList e)) chain.

Definition contains (e : Element) (cls : string) : bool :=
  bool_decide (cls ∈ classList e).

End Obsidian.

(** ** [WorkspaceManager] *)
Module WM.
Import Obsidian.

(** [CachedSelectionState]; [cached_view] is the reference to the view,
    tested for truthiness before it is used. *)
Record CachedSelectionState := mkCached {
  cached_text : string;
  cached_filePath : string;
  cached_fileUrl : string;
  cached_selection : Mcp.SelectionRange;
  cached_view : option ViewRef;
  cached_timestamp : Z
}.

(** The object [getCurrentSelection] returns. *)
Record Snapshot := mkSnapshot {
  snap_text : string;
  snap_filePath : option string;
  snap_selection : Mcp.SelectionRange;
  fromCache : bool
}.

(** The mutable part of a [WorkspaceManager]. *)
Record WorkspaceManager := mkManager {
  cachedSelectionState : option CachedSelectionState
}.

(** Methods read and write the manager and call [config.onSelectionChange];
    the notifications handed to that callback are collected in order. *)
Definition M (A : Type) : Type :=
  WorkspaceManager -> A * WorkspaceManager * list Mcp.McpNotification.

Definition ret {A} (a : A) : M A := fun s => (a, s, []).

Definition bind {A B} (m : M A) (f : A -> M B) : M B :=
  fun s =>
    let '(a, s1, out1) := m s in
    let '(b, s2, out2) := f a s1 in
    (b, s2, out1 ++ out2).

Notation "'let*' x := m 'in' k" := (bind m (fun x => k))
  (at level 10, x name, m at level 100, k at level 200, only parsing).
Notation "m ;;; k" := (bind m (fun _ => k))
  (at level 100, k at level 200, right associativity, only parsing).

Definition readCache : M (option CachedSelectionState) :=
  fun s => (cachedSelectionState s, s, []).

Definition writeCache (c : CachedSelectionState) : M unit :=
  fun _ => (tt, mkManager (Some c), []).

Definition onSelectionChange (message : Mcp.McpNotification) : M unit :=
  fun s => (tt, s, [message]).

Definition result {A} (m : M A) (s : WorkspaceManager) : A := (m s).1.1.
Definition after {A} (m : M A) (s : WorkspaceManager) : WorkspaceManager := (m s).1.2.
Definition sent {A} (m : M A) (s : WorkspaceManager) : list Mcp.McpNotification := (m s).2.

(** JavaScript truthiness of a string. *)
Definition truthy (s : string) : bool := negb (String.eqb s "").

(** The transaction-state read: the body of the three [try] blocks
    (lines 198-232, 331-370 and 416-455, which are the same code), given
    the [cm] of the editor. [None]: the block threw. *)
Definition readTransactionState (cmEditor : option CM.EditorView)
  : option (string * Mcp.SelectionRange) :=
  view ← cmEditor;
  let state := CM.state view in
  let mainSelection := CM.main state in
  let hasSelection := negb (CM.empty mainSelection) in
  let text :=
    if hasSelection
    then CM.sliceString (CM.doc state) (CM.from mainSelection) (CM.to mainSelection)
    else "" in
  fromLine ← CM.lineAt (CM.doc state) (CM.from mainSelection);
  toLine ← CM.lineAt (CM.doc state) (CM.to mainSelection);
  let selectionRange :=
    if hasSelection
    then Mcp.mkSelectionRange
           (Mcp.mkPosition (CM.number fromLine - 1)
                           (CM.from mainSelection - CM.line_from fromLine))
           (Mcp.mkPosition (CM.number toLine - 1)
                           (CM.to mainSelection - CM.line_from toLine))
           false
    else Mcp.mkSelectionRange
           (Mcp.mkPosition (CM.number fromLine - 1)
                           (CM.from mainSelection - CM.line_from fromLine))
           (Mcp.mkPosition (CM.number fromLine - 1)
                           (CM.from mainSelection - CM.line_from fromLine))
           true in
  Some (text, selectionRange).

(** The fallback on the editor's own accessors: the body of the two
    [catch] blocks (lines 235-253 and 380-399). *)
Definition readPlainAccessor (editor : Editor) : string * Mcp.SelectionRange :=
  let selection := getSelection editor in
  let cursor := getCursor editor cursorHead in
  let hasSelection := 0 <? CM.strlen selection in
  if hasSelection then
    let from := getCursor editor cursorFrom in
    let to := getCursor editor cursorTo in
    (selection,
     Mcp.mkSelectionRange (Mcp.mkPosition (line from) (ch from))
                          (Mcp.mkPosition (line to) (ch to)) false)
  else
    (selection,
     Mcp.mkSelectionRange (Mcp.mkPosition (line cursor) (ch cursor))
                          (Mcp.mkPosition (line cursor) (ch cursor)) true).

(** A selection range is coherent when [isEmpty] holds exactly when its two
    ends are the same position. *)
Definition coherent (r : Mcp.SelectionRange) : Prop :=
  Mcp.isEmpty r = true <-> Mcp.start r = Mcp.end_ r.

(** The contract of the editor's own accessors that the fallback relies on:
    when [getSelection()] is not empty, [getCursor("from")] and
    [getCursor("to")] are different positions. *)
Definition accessorsAgree (editor : Editor) : Prop :=
  getSelection editor <> "" ->
  getCursor editor cursorFrom <> getCursor editor cursorTo.

(** [try { transaction-state read } catch { plain accessors }]. *)
Definition readEditor (editor : Editor) : string * Mcp.SelectionRange :=
  match readTransactionState (cm editor) with
  | Some r => r
  | None => readPlainAccessor editor
  end.

(** The re-read through the view kept in the cache (lines 414-466):
    [None] when the reference is falsy or the [try] block throws. *)
Definition rereadCachedView (app : App) (c : CachedSelectionState)
  : option (string * Mcp.SelectionRange) :=
  r ← cached_view c;
  v ← views app !! r;
  e ← editor v;
  readTransactionState (cm e).

(** The focused view that qualifies for a live read: the active view is a
    [MarkdownView] with an editor, and there is an active file (the tests of
    lines 323 and 326). *)
Definition liveSource (app : App) : option (ViewRef * Editor * TFile) :=
  '(r, activeView) ← getActiveViewOfType app;
  e ← editor activeView;
  f ← activeFile app;
  Some (r, e, f).

(** The events [setupListeners] subscribes to: ["active-leaf-change"],
    ["file-open"] with its file or [null], and the DOM ["selectionchange"]. *)
Inductive WorkspaceEvent :=
| ActiveLeafChange
| FileOpen (file : option TFile)
| DomSelectionChange.

Section Manager.
(** [getAbsolutePath(relativePath, basePath)] of [./utils]. *)
Variable getAbsolutePath_util : string -> string -> string.
Variable app : App.

(** [getAbsolutePath] (lines 294-298). *)
Definition getAbsolutePath (relativePath : string) : string :=
  let basePath :=
    match getBasePath app with
    | Some p => if truthy p then p else cwd app
    | None => cwd app
    end in
  getAbsolutePath_util relativePath basePath.

Definition fileUrlOf (relativePath : string) : string :=
  "file://" +:+ getAbsolutePath relativePath.

(** [getCachedSelection] (lines 305-307). *)
Definition getCachedSelection : M (option CachedSelectionState) := readCache.

(** The end of [getCurrentSelection] (lines 411-477). *)
Definition fallBackToCache : M (option Snapshot) :=
  let* cached := readCache in
  match cached with
  | Some c =>
      match rereadCachedView app c with
      | Some (text, selectionRange) =>
          ret (Some (mkSnapshot text (Some (cached_filePath c)) selectionRange false))
      | None =>
          ret (Some (mkSnapshot (cached_text c) (Some (cached_filePath c))
                                (cached_selection c) true))
      end
  | None => ret None
  end.

(** [getCurrentSelection] (lines 313-478). *)
Definition getCurrentSelection : M (option Snapshot) :=
  match getActiveViewOfType app with
  | Some (_, activeView) =>
      match editor activeView, activeFile app with
      | Some editor, Some activeFile =>
          let '(text, selectionRange) := readEditor editor in
          ret (Some (mkSnapshot text (Some (path activeFile)) selectionRange false))
      | _, _ => fallBackToCache
      end
  | None => fallBackToCache
  end.

(** [broadcastSelectionChange] (lines 281-292). *)
Definition broadcastSelectionChange (params : Mcp.SelectionChangedParams) : M unit :=
  onSelectionChange (Mcp.mkNotification "2.0" "selection_changed" params).

(** The range sent when there is nothing to report (lines 175-179). *)
Definition emptyRange : Mcp.SelectionRange :=
  Mcp.mkSelectionRange (Mcp.mkPosition 0 0) (Mcp.mkPosition 0 0) true.

(** The [else] branch of [sendCurrentFileContext] (lines 169-181). *)
Definition noSelectionParams : Mcp.SelectionChangedParams :=
  Mcp.mkParams ""
    (match activeFile app with Some f => Some (path f) | None => None end)
    (match activeFile app with Some f => Some (fileUrlOf (path f)) | None => None end)
    emptyRange.

(** [sendCurrentFileContext] (lines 142-183). *)
Definition sendCurrentFileContext : M unit :=
  let* currentSelection := getCurrentSelection in
  match currentSelection with
  | Some cs =>
      match snap_filePath cs with
      | Some fp =>
          if truthy fp
          then broadcastSelectionChange
                 (Mcp.mkParams (snap_text cs) (Some fp) (Some (fileUrlOf fp))
                               (snap_selection cs))
          else broadcastSelectionChange noSelectionParams
      | None => broadcastSelectionChange noSelectionParams
      end
  | None => broadcastSelectionChange noSelectionParams
  end.

(** [sendSelectionContext] (lines 185-279). *)
Definition sendSelectionContext (editor : Editor) : M unit :=
  match activeFile app with
  | None => ret tt
  | Some activeFile =>
      let activeView := getActiveViewOfType app in
      let '(selection, selectionRange) := readEditor editor in
      let filePath := path activeFile in
      let fileUrl := fileUrlOf (path activeFile) in
      let params := Mcp.mkParams selection (Some filePath) (Some fileUrl) selectionRange in
      (match activeView with
       | Some (r, _) =>
           writeCache (mkCached selection filePath fileUrl selectionRange (Some r) (now app))
       | None => ret tt
       end) ;;;
      broadcastSelectionChange params
  end.

(** The [while] loop of [isSelectionInEditableNote] (lines 111-137), on
    the chain of elements from the current one up to the root. *)
Fixpoint findEditorContainer (chain : list Element) : bool :=
  match chain with
  | [] => false
  | element :: parents =>
      if contains element "cm-editor"
         || contains element "CodeMirror"
         || contains element "markdown-source-view"
         || contains element "markdown-preview-view"
      then closest "workspace" chain
           && negb (closest "modal" chain)
           && negb (closest "vertical-tab-content" chain)
      else findEditorContainer parents
  end.

(** [isSelectionInEditableNote] (lines 93-140). *)
Definition isSelectionInEditableNote : bool :=
  match windowSelection app with
  | None => false
  | Some selection =>
      if rangeCount selection =? 0 then false
      else match anchorNode selection with
           | None => false
           | Some (ElementNode self ancestors) => findEditorContainer (self :: ancestors)
           | Some (OtherNode ancestors) => findEditorContainer ancestors
           end
  end.

(** [checkAndSendSelection] (lines 74-91). *)
Definition checkAndSendSelection : M unit :=
  if negb isSelectionInEditableNote then ret tt
  else
    let view := r ← activeLeaf app; views app !! r in
    match v ← view; editor v with
    | Some editor => sendSelectionContext editor
    | None => ret tt
    end.

(** [sendInitialContext] (lines 70-72). *)
Definition sendInitialContext : M unit := sendCurrentFileContext.

(** The three listeners registered by [setupListeners] (lines 43-68). *)
Definition listener (ev : WorkspaceEvent) : M unit :=
  match ev with
  | ActiveLeafChange => sendCurrentFileContext
  | FileOpen (Some _) => sendCurrentFileContext
  | FileOpen None => ret tt
  | DomSelectionChange => checkAndSendSelection
  end.
End Manager.

(** The manager over time: the events arrive one after the other, each
    with the workspace as it is when the event is handled. *)
Fixpoint run (util : string -> string -> string)
    (trace : list (App * WorkspaceEvent)) : M unit :=
  match trace with
  | [] => ret tt
  | (app, ev) :: rest => listener util app ev ;;; run util rest
  end.

(** Every editor of the workspace has accessors that agree. *)
Definition editorsAgree (app : App) : Prop :=
  forall r v e, views app !! r = Some v -> editor v = Some e -> accessorsAgree e.

(** The range kept in the cache, if any, is coherent. *)
Definition cacheCoherent (wm : WorkspaceManager) : Prop :=
  forall c, cachedSelectionState wm = Some c -> coherent (cached_selection c).

(** The manager as the constructor leaves it (line 33). *)
Definition initial : WorkspaceManager := mkManager None.

(** The test of lines 115-120: the element is one of the editor
    containers. *)
Definition isEditorContainer (e : Element) : bool :=
  contains e "cm-editor" || contains e "CodeMirror"
  || contains e "markdown-source-view" || contains e "markdown-preview-view".

(** The elements the loop of [isSelectionInEditableNote] visits for an
    anchor node: the node itself when it is an element, then its
    ancestors (lines 106-109). *)
Definition elementChain (n : Node) : list Element :=
  match n with
  | ElementNode self ancestors => self :: ancestors
  | OtherNode ancestors => ancestors
  end.

(** The editor [checkAndSendSelection] hands to [sendSelectionContext]:
    [(activeLeaf?.view as any)?.editor] (lines 81-84). *)
Definition activeEditor (app : App) : option Editor :=
  r ← activeLeaf app; v ← views app !! r; editor v.

(** The cached state [c] was written while handling a selection change in
    [app]: it carries the path and URL of the file active then, the view
    active then and the time then. *)
Definition writtenIn (util : string -> string -> string) (app : App)
    (c : CachedSelectionState) : Prop :=
  (path <$> activeFile app) = Some (cached_filePath c)
  /\ cached_fileUrl c = fileUrlOf util app (cached_filePath c)
  /\ (exists r v, getActiveViewOfType app = Some (r, v) /\ cached_view c = Some r)
  /\ cached_timestamp c = now app.
End WM.


(** ** The highlight overlay: [selectionHighlightField] and [focusChangeHandler] *)
Module Highlight.

(** The effects a transaction can carry: [setSelectionHighlight] with its
    value ([{from, to}] or [null]), or an effect of another extension, for
    which [effect.is(setSelectionHighlight)] is false. *)
Inductive StateEffect :=
| setSelectionHighlight (value : option (Z * Z))
| foreignEffect (tag : nat).

(** A mark decoration (its CSS class) and a range carrying one. *)
Record Decoration := mkDecoration { class : string }.

Record Range := mkRange {
  from : Z;
  to : Z;
  value : Decoration
}.

(** [DecorationSet]: the ranges of the set in document order;
    [Decoration.none] is the empty set. *)
Definition DecorationSet := list Range.

Definition none : DecorationSet := [].

(** [decorations !== Decoration.none]: CodeMirror has one empty set, so the
    comparison of references is a test for emptiness. *)
Definition isNone (decorations : DecorationSet) : bool :=
  match decorations with [] => true | _ => false end.

(** [selectionMark] (lines 34-36). *)
Definition selectionMark : Decoration := mkDecoration "cm-selectionBackground".

(** [mark.range(from, to)]: CodeMirror refuses an empty mark ("Mark
    decorations may not be empty"); [None] stands for that [RangeError]. *)
Definition range (d : Decoration) (from to : Z) : option Range :=
  if to <=? from then None else Some (mkRange from to d).

(** [RangeSet.of] on the ranges given. *)
Definition RangeSet_of (ranges : list Range) : DecorationSet := ranges.

(** [ChangeSet] and the mapping of a decoration set through it
    ([decorations.map(tr.changes)]) belong to CodeMirror and are not part
    of the source files; they are described here as the library documents
    them. A change replaces the text between [ch_from] and [ch_to] of the
    old document by [ch_insert] new characters; a change set lists its
    changes in document order. *)
Record Change := mkChange {
  ch_from : Z;
  ch_to : Z;
  ch_insert : Z
}.

Definition ChangeSet := list Change.

(** [ChangeDesc.mapPos]: the position in the new document of a position
    of the old one. [assoc] tells to which side the position sticks when
    text is inserted at it; [shift] is the displacement accumulated by the
    changes already passed. *)
Fixpoint mapPosFrom (changes : ChangeSet) (pos assoc shift : Z) : Z :=
  match changes with
  | [] => pos + shift
  | c :: rest =>
      if pos <? ch_from c then pos + shift
      else if (pos <? ch_to c)
              || ((pos =? ch_to c) && (assoc <? 0) && (ch_to c =? ch_from c))
      then if (pos =? ch_from c) || (assoc <? 0)
           then ch_from c + shift
           else ch_from c + shift + ch_insert c
      else mapPosFrom rest pos assoc (shift + ch_insert c - (ch_to c - ch_from c))
  end.

Definition mapPos (changes : ChangeSet) (pos assoc : Z) : Z :=
  mapPosFrom changes pos assoc 0.


(** The two ends of a mark that is not inclusive, as [RangeSet.map] maps
    them: the start sticks to the text after it and the end to the text
    before it. *)
Definition mapRange (changes : ChangeSet) (r : Range) : Range :=
  mkRange (mapPos changes (from r) 1) (mapPos changes (to r) (-1)) (value r).

(** [RangeSet.map] for marks that are not inclusive, which is what
    [selectionMark] is: every range is mapped, and a range whose mapped
    ends meet or cross is dropped from the set (a mark may not be empty);
    a set left without ranges is the empty set. *)
Definition mapSet (decorations : DecorationSet) (changes : ChangeSet) : DecorationSet :=
  List.filter (fun r => from r <? to r) (List.map (mapRange changes) decorations).

(** [Transaction], reduced to what [update] reads: [tr.effects],
    [tr.changes] and [tr.state], the state the transaction produces.
    [tr.docChanged] holds when the change set is not empty. *)
Record Transaction := mkTransaction {
  effects : list StateEffect;
  changes : ChangeSet;
  state : CM.EditorState
}.

Definition docChanged (tr : Transaction) : bool :=
  match changes tr with [] => false | _ => true end.

(** [create] (lines 42-44). *)
Definition create : DecorationSet := none.

(** The [for] loop of [update] (lines 48-60): the first
    [setSelectionHighlight] effect decides; [rest] is what the function
    goes on to return when the loop finds none. [None]: an exception. *)
Fixpoint scanEffects (effs : list StateEffect) (tr : Transaction)
    (rest : DecorationSet) : option DecorationSet :=
  match effs with
  | [] => Some rest
  | setSelectionHighlight None :: _ => Some none
  | setSelectionHighlight (Some (from, to)) :: _ =>
      if (from <? to) && (to <=? CM.length (CM.doc (state tr)))
      then r ← range selectionMark from to; Some (RangeSet_of [r])
      else Some none
  | foreignEffect _ :: effs' => scanEffects effs' tr rest
  end.

(** [update] (lines 46-68). *)
Definition update (decorations : DecorationSet) (tr : Transaction)
    : option DecorationSet :=
  scanEffects (effects tr) tr
    (if docChanged tr && negb (isNone decorations)
     then mapSet decorations (changes tr)
     else decorations).

(** [focusChangeHandler] (lines 77-94): the effect to dispatch, or [null]. *)
Definition focusChangeHandler (state : CM.EditorState) (focusing : bool)
    : option StateEffect :=
  if focusing then Some (setSelectionHighlight None)
  else
    let selection := CM.main state in
    if negb (CM.empty selection)
    then Some (setSelectionHighlight (Some (CM.from selection, CM.to selection)))
    else None.

(** An editor state together with the value of the field in it. *)
Record FieldState := mkFieldState {
  editorState : CM.EditorState;
  decorations : DecorationSet
}.

(** What the editor does with [EditorView.focusChangeEffect] when its focus
    changes: the effects the handlers return, if any, are dispatched in one
    transaction without changes, and the field is updated by it; with no
    effect no transaction is dispatched. [others] stands for the effects
    that the handlers of other extensions return. *)
Definition focusChange (others : list nat) (s : FieldState) (focusing : bool)
    : option FieldState :=
  let effs :=
    match focusChangeHandler (editorState s) focusing with
    | Some e => List.map foreignEffect others ++ [e]
    | None => List.map foreignEffect others
    end in
  match effs with
  | [] => Some s
  | _ =>
      d ← update (decorations s) (mkTransaction effs [] (editorState s));
      Some (mkFieldState (editorState s) d)
  end.

End Highlight.


(** ** Concrete workspaces used to exercise the definitions *)
Module Examples.
Import Obsidian WM.

(** A note of three lines, with characters 5 to 10 of line 2 selected. *)
Definition doc0 : CM.Text := ["# Title"; "first paragraph"; "second paragraph"].

Definition view0 : CM.EditorView :=
  CM.mkView (CM.mkState doc0 (CM.mkRange 29 34)).

(** Its editor: unfocused, the plain accessors report no selection. *)
Definition editor0 : Editor :=
  mkEditor (Some view0) "" (fun _ => mkEditorPosition 0 0).

(** An editor without transaction state, read through its accessors. *)
Definition editorPlain : Editor :=
  mkEditor None "abc"
    (fun side => match side with
                 | cursorFrom => mkEditorPosition 0 1
                 | _ => mkEditorPosition 0 4
                 end).

(** The line and column of an offset, (0,0) outside the document. *)
Definition positionAt (doc : CM.Text) (pos : Z) : EditorPosition :=
  match CM.lineAt doc pos with
  | Some l => mkEditorPosition (CM.number l - 1) (pos - CM.line_from l)
  | None => mkEditorPosition 0 0
  end.

(** An editor without transaction state whose accessors answer from one
    document and one selection: [getSelection] is the text between the two
    ends of the selection, [getCursor] the position of the end asked for. *)
Definition plainEditorOver (st : CM.EditorState) : Editor :=
  mkEditor None
    (CM.sliceString (CM.doc st) (CM.from (CM.main st)) (CM.to (CM.main st)))
    (fun side => match side with
                 | cursorFrom => positionAt (CM.doc st) (CM.from (CM.main st))
                 | cursorTo => positionAt (CM.doc st) (CM.to (CM.main st))
                 | cursorHead => positionAt (CM.doc st) (CM.head (CM.main st))
                 end).

(** An editor without transaction state whose main selection is a bare
    cursor at (0,4) while [getSelection()] is not empty: the text reported
    is that of another selected range. *)
Definition editorMulti : Editor :=
  mkEditor None "abc" (fun _ => mkEditorPosition 0 4).

Definition note0 : View := mkViewObj true (Some editor0).
Definition panel0 : View := mkViewObj false None.
Definition file0 : TFile := mkTFile "notes/today.md".

Definition joinPath (relativePath basePath : string) : string :=
  basePath +:+ "/" +:+ relativePath.

(** The note is the active view. *)
Definition appEditing : App :=
  mkApp (Some 1%nat) (Some file0) (<[1%nat := note0]> (<[2%nat := panel0]> ∅))
        (Some "/vault") "/" 1000 None.

(** A note shown by [editorMulti] is the active view. *)
Definition appMulti : App :=
  mkApp (Some 1%nat) (Some file0) (<[1%nat := mkViewObj true (Some editorMulti)]> ∅)
        (Some "/vault") "/" 1000 None.

(** The side panel is the active view; the note is still open. *)
Definition appPanel : App :=
  mkApp (Some 2%nat) (Some file0) (<[1%nat := note0]> (<[2%nat := panel0]> ∅))
        (Some "/vault") "/" 2000 None.

(** The side panel is the active view and the note has been closed. *)
Definition appClosed : App :=
  mkApp (Some 2%nat) None (<[2%nat := panel0]> ∅) (Some "/vault") "/" 3000 None.

(** A DOM selection anchored in a text node of the note's editor. *)
Definition domInEditor : DomSelection :=
  mkDomSelection 1
    (Some (OtherNode [mkElement ["cm-line"]; mkElement ["cm-content"];
                      mkElement ["cm-editor"; "cm-focused"];
                      mkElement ["markdown-source-view"; "mod-cm6"];
                      mkElement ["workspace-leaf-content"];
                      mkElement ["workspace"]; mkElement ["app-container"]])).

(** The same selection in an editor shown inside a modal. *)
Definition domInModal : DomSelection :=
  mkDomSelection 1
    (Some (OtherNode [mkElement ["cm-line"]; mkElement ["cm-editor"];
                      mkElement ["modal"]; mkElement ["workspace"]])).

(** The note is the active view and the DOM selection is in its editor. *)
Definition appSelecting : App :=
  mkApp (Some 1%nat) (Some file0) (<[1%nat := note0]> (<[2%nat := panel0]> ∅))
        (Some "/vault") "/" 1000 (Some domInEditor).

(** As [appSelecting], but the workspace reports no active file. *)
Definition appNoFile : App :=
  mkApp (Some 1%nat) None (<[1%nat := note0]> (<[2%nat := panel0]> ∅))
        (Some "/vault") "/" 1000 (Some domInEditor).

Definition range0 : Mcp.SelectionRange :=
  Mcp.mkSelectionRange (Mcp.mkPosition 2 5) (Mcp.mkPosition 2 10) false.

(** What the selection-change path leaves in the cache for [appEditing]. *)
Definition cached0 : CachedSelectionState :=
  mkCached "d par" "notes/today.md" "file:///vault/notes/today.md" range0
           (Some 1%nat) 1000.

(** The note is the active view and the DOM selection is in a modal. *)
Definition appModal : App :=
  mkApp (Some 1%nat) (Some file0) (<[1%nat := note0]> (<[2%nat := panel0]> ∅))
        (Some "/vault") "/" 1000 (Some domInModal).

(** An older state of the cache: another selection of the same note. *)
Definition stale0 : CachedSelectionState :=
  mkCached "Title" "notes/today.md" "file:///vault/notes/today.md"
           (Mcp.mkSelectionRange (Mcp.mkPosition 0 2) (Mcp.mkPosition 0 7) false)
           (Some 1%nat) 10.

End Examples.


(** * Properties *)

(** ** Lines and offsets of a document *)
Section LineFacts.

Lemma strlen_nonneg (s : string) : 0 <= CM.strlen s.
Proof. unfold CM.strlen. lia. Qed.

Lemma lineStart_nonneg (doc : CM.Text) (k : nat) : 0 <= CM.lineStart doc k.
Proof.
  revert k. induction doc as [|s rest IH]; intros [|k]; simpl; try lia.
  specialize (IH k). pose proof (strlen_nonneg s). lia.
Qed.

Lemma length_cons (s : string) (rest : CM.Text) :
  CM.length (s :: rest) =
  CM.strlen s + match rest with [] => 0 | _ => 1 + CM.length rest end.
Proof. destruct rest; simpl; lia. Qed.

Lemma length_nonneg (doc : CM.Text) : 0 <= CM.length doc.
Proof.
  induction doc as [|s rest IH]; [simpl; lia|].
  rewrite length_cons. pose proof (strlen_nonneg s). destruct rest; lia.
Qed.

(** The line of index [k] lies inside the document. *)
Lemma line_within_doc (doc : CM.Text) (k : nat) (l : string) :
  doc !! k = Some l -> CM.lineStart doc k + CM.strlen l <= CM.length doc.
Proof.
  revert k. induction doc as [|s rest IH]; intros k Hk; [discriminate|].
  rewrite length_cons. destruct k as [|k]; simpl in *.
  - injection Hk as ->. pose proof (length_nonneg rest). destruct rest; lia.
  - specialize (IH _ Hk). destruct rest; [discriminate|]. lia.
Qed.

(** The search started at the first line, numbered [line] and starting at
    [offset], finds the line of index [k] for every target inside it. *)
Lemma lineInner_at (text : CM.Text) (k : nat) (l : string) (a line offset : Z) :
  text !! k = Some l -> 0 <= a <= CM.strlen l ->
  CM.lineInner text (offset + CM.lineStart text k + a) line offset =
  Some (CM.mkLine (offset + CM.lineStart text k)
                  (offset + CM.lineStart text k + CM.strlen l)
                  (line + Z.of_nat k) l).
Proof.
  revert k line offset.
  induction text as [|s rest IH]; intros k line offset Hk Ha; [discriminate|].
  destruct k as [|k]; simpl in *.
  - injection Hk as ->.
    destruct (Z.leb_spec (offset + 0 + a) (offset + CM.strlen l)); [|lia].
    do 2 f_equal; lia.
  - pose proof (lineStart_nonneg rest k).
    destruct (Z.leb_spec (offset + (CM.strlen s + 1 + CM.lineStart rest k) + a)
                         (offset + CM.strlen s)); [lia|].
    replace (offset + (CM.strlen s + 1 + CM.lineStart rest k) + a)
      with ((offset + CM.strlen s + 1) + CM.lineStart rest k + a) by lia.
    rewrite (IH k (line + 1) (offset + CM.strlen s + 1) Hk Ha).
    do 2 f_equal; lia.
Qed.

(** [lineAt] at column [a] of the line of index [k]. *)
Lemma lineAt_at (doc : CM.Text) (k : nat) (l : string) (a : Z) :
  doc !! k = Some l -> 0 <= a <= CM.strlen l ->
  CM.lineAt doc (CM.lineStart doc k + a) =
  Some (CM.mkLine (CM.lineStart doc k) (CM.lineStart doc k + CM.strlen l)
                  (Z.of_nat k + 1) l).
Proof.
  intros Hk Ha. unfold CM.lineAt.
  pose proof (lineStart_nonneg doc k). pose proof (line_within_doc _ _ _ Hk).
  destruct (Z.ltb_spec (CM.lineStart doc k + a) 0); [lia|].
  destruct (Z.ltb_spec (CM.length doc) (CM.lineStart doc k + a)); [lia|].
  simpl. pose proof (lineInner_at doc k l a 1 0 Hk Ha) as E.
  rewrite !Z.add_0_l in E. rewrite E. do 2 f_equal; lia.
Qed.

(** What the search returns is a line of the document that contains the
    target, with its number and its starting offset. *)
Lemma lineInner_inv (text : CM.Text) (target line offset : Z) (L : CM.Line) :
  CM.lineInner text target line offset = Some L -> offset <= target ->
  exists k : nat,
    text !! k = Some (CM.line_text L) /\
    CM.number L = line + Z.of_nat k /\
    CM.line_from L = offset + CM.lineStart text k /\
    CM.line_to L = CM.line_from L + CM.strlen (CM.line_text L) /\
    CM.line_from L <= target <= CM.line_to L.
Proof.
  revert line offset.
  induction text as [|s rest IH]; intros line offset H Hle; [discriminate|].
  simpl in H. destruct (Z.leb_spec target (offset + CM.strlen s)).
  - injection H as <-. exists 0%nat. simpl. repeat split; lia.
  - destruct (IH _ _ H) as (k & Hk & Hn & Hf & Ht & Hin); [lia|].
    exists (S k). simpl. repeat split; try lia. exact Hk.
Qed.

Lemma lineAt_inv (doc : CM.Text) (pos : Z) (L : CM.Line) :
  CM.lineAt doc pos = Some L ->
  exists k : nat,
    doc !! k = Some (CM.line_text L) /\
    CM.number L = Z.of_nat k + 1 /\
    CM.line_from L = CM.lineStart doc k /\
    CM.line_to L = CM.line_from L + CM.strlen (CM.line_text L) /\
    CM.line_from L <= pos <= CM.line_to L.
Proof.
  unfold CM.lineAt. intros H.
  destruct (Z.ltb_spec pos 0); [discriminate|].
  destruct (Z.ltb_spec (CM.length doc) pos); [discriminate|].
  simpl in H. destruct (lineInner_inv _ _ _ _ _ H) as (k & ? & ? & ? & ? & ?); [lia|].
  exists k. repeat split; try lia. assumption.
Qed.

(** [lineAt] succeeds on every offset of a document that has a line. *)
Lemma lineInner_total (text : CM.Text) (target line offset : Z) :
  text <> [] -> target <= offset + CM.length text ->
  is_Some (CM.lineInner text target line offset).
Proof.
  revert line offset. induction text as [|s rest IH]; intros line offset Hne Hle; [done|].
  simpl. destruct (Z.leb_spec target (offset + CM.strlen s)); [eauto|].
  rewrite length_cons in Hle. destruct rest as [|s' rest']; [lia|].
  apply IH; [done|lia].
Qed.

Lemma lineAt_total (doc : CM.Text) (pos : Z) :
  doc <> [] -> 0 <= pos <= CM.length doc -> is_Some (CM.lineAt doc pos).
Proof.
  intros Hne Hpos. unfold CM.lineAt.
  destruct (Z.ltb_spec pos 0); [lia|].
  destruct (Z.ltb_spec (CM.length doc) pos); [lia|].
  simpl. apply lineInner_total; [done|lia].
Qed.

End LineFacts.

(** ** The text between two offsets *)
Section SliceFacts.

Lemma substring_app_skip (p t : string) (n m : nat) :
  substring (String.length p + n) m (p +:+ t) = substring n m t.
Proof. induction p as [|c p IH]; simpl; [reflexivity | exact IH]. Qed.

Lemma substring_app_prefix (l t : string) (n m : nat) :
  (n + m <= String.length l)%nat ->
  substring n m (l +:+ t) = substring n m l.
Proof.
  revert n m. induction l as [|c l IH]; intros n m H; simpl in *.
  - assert (n = 0%nat) as -> by lia. assert (m = 0%nat) as -> by lia.
    destruct t; reflexivity.
  - destruct n as [|n].
    + destruct m as [|m]; [reflexivity|]. f_equal. apply IH. lia.
    + apply IH. lia.
Qed.

Lemma substring_none (n : nat) (s : string) : substring n 0 s = "".
Proof. revert n. induction s as [|c s IH]; intros [|n]; simpl; auto. Qed.

(** In the text of the document, the characters of the line of index [k]
    are found from the offset where that line starts. *)
Lemma toString_line (doc : CM.Text) (k : nat) (l : string) (n m : nat) :
  doc !! k = Some l -> (n + m <= String.length l)%nat ->
  substring (Z.to_nat (CM.lineStart doc k) + n) m (CM.toString doc) =
  substring n m l.
Proof.
  revert k. induction doc as [|s rest IH]; intros k Hk H; [discriminate|].
  destruct k as [|k]; simpl in Hk.
  - injection Hk as ->. simpl.
    destruct rest; [reflexivity|]. by apply substring_app_prefix.
  - destruct rest as [|s' rest']; [discriminate|].
    pose proof (lineStart_nonneg (s' :: rest') k).
    change (CM.toString (s :: s' :: rest'))
      with (s +:+ String "010"%char (CM.toString (s' :: rest'))).
    change (CM.lineStart (s :: s' :: rest') (S k))
      with (CM.strlen s + 1 + CM.lineStart (s' :: rest') k).
    replace (Z.to_nat (CM.strlen s + 1 + CM.lineStart (s' :: rest') k) + n)%nat
      with (String.length s + S (Z.to_nat (CM.lineStart (s' :: rest') k) + n))%nat
      by (unfold CM.strlen; lia).
    rewrite substring_app_skip. simpl. by apply IH.
Qed.

(** [sliceString] between two columns of one line is the substring of that
    line between the columns. *)
Lemma sliceString_line (doc : CM.Text) (k : nat) (l : string) (a b : Z) :
  doc !! k = Some l -> 0 <= a -> a <= b -> b <= CM.strlen l ->
  CM.sliceString doc (CM.lineStart doc k + a) (CM.lineStart doc k + b) =
  substring (Z.to_nat a) (Z.to_nat (b - a)) l.
Proof.
  intros Hk Ha Hab Hb. unfold CM.sliceString.
  pose proof (lineStart_nonneg doc k).
  replace (Z.to_nat (CM.lineStart doc k + a))
    with (Z.to_nat (CM.lineStart doc k) + Z.to_nat a)%nat by lia.
  replace (CM.lineStart doc k + b - (CM.lineStart doc k + a)) with (b - a) by lia.
  apply toString_line; [done|]. unfold CM.strlen in Hb. lia.
Qed.

End SliceFacts.

(** ** The transaction-state read *)
Section ReadFacts.
Import WM.

Lemma from_le_to (r : CM.SelectionRange) : CM.from r <= CM.to r.
Proof. unfold CM.from, CM.to. lia. Qed.

Lemma empty_iff (r : CM.SelectionRange) : CM.empty r = true <-> CM.from r = CM.to r.
Proof. unfold CM.empty. apply Z.eqb_eq. Qed.

(** A position of the document has one line and one column. *)
Lemma locates_unique (doc : CM.Text) (pos : Z) k1 l1 a1 k2 l2 a2 :
  CM.locates doc pos k1 l1 a1 -> CM.locates doc pos k2 l2 a2 ->
  k1 = k2 /\ l1 = l2 /\ a1 = a2.
Proof.
  intros (Hk1 & Ha1 & E1) (Hk2 & Ha2 & E2).
  pose proof (lineAt_at doc k1 l1 a1 Hk1 Ha1) as L1.
  pose proof (lineAt_at doc k2 l2 a2 Hk2 Ha2) as L2.
  rewrite <- E1 in L1. rewrite <- E2 in L2. rewrite L1 in L2.
  injection L2 as Hs _ Hn Hl.
  assert (k1 = k2) by lia. subst k2. repeat split; [done|lia].
Qed.

(** The read succeeds on a selection whose two ends are positions of the
    document, and reports their lines and columns. *)
Lemma readTransactionState_at (v : CM.EditorView) k1 l1 a k2 l2 b :
  let doc := CM.doc (CM.state v) in
  let sel := CM.main (CM.state v) in
  CM.locates doc (CM.from sel) k1 l1 a ->
  CM.locates doc (CM.to sel) k2 l2 b ->
  readTransactionState (Some v) =
  Some (CM.sliceString doc (CM.from sel) (CM.to sel),
        Mcp.mkSelectionRange (Mcp.mkPosition (Z.of_nat k1) a)
                             (Mcp.mkPosition (Z.of_nat k2) b)
                             (CM.empty sel)).
Proof.
  intros doc sel H1 H2.
  pose proof H1 as (Hk1 & Ha1 & E1). pose proof H2 as (Hk2 & Ha2 & E2).
  assert (L1 : CM.lineAt doc (CM.from sel) = Some
    (CM.mkLine (CM.lineStart doc k1) (CM.lineStart doc k1 + CM.strlen l1)
               (Z.of_nat k1 + 1) l1)) by (rewrite E1; by apply lineAt_at).
  assert (L2 : CM.lineAt doc (CM.to sel) = Some
    (CM.mkLine (CM.lineStart doc k2) (CM.lineStart doc k2 + CM.strlen l2)
               (Z.of_nat k2 + 1) l2)) by (rewrite E2; by apply lineAt_at).
  unfold readTransactionState. simpl. fold doc sel.
  rewrite L1. simpl. rewrite L2. simpl.
  destruct (CM.empty sel) eqn:Hem; simpl.
  - apply empty_iff in Hem.
    assert (H2' : CM.locates doc (CM.from sel) k2 l2 b) by (rewrite Hem; exact H2).
    destruct (locates_unique _ _ _ _ _ _ _ _ H1 H2') as (<- & <- & <-).
    unfold CM.sliceString. rewrite Hem, Z.sub_diag. simpl. rewrite substring_none.
    do 3 f_equal; f_equal; lia.
  - do 3 f_equal; f_equal; lia.
Qed.

(** A read that succeeds was made on a selection whose two ends are
    positions of the document. *)
Lemma readTransactionState_inv (v : CM.EditorView) text range :
  let doc := CM.doc (CM.state v) in
  let sel := CM.main (CM.state v) in
  readTransactionState (Some v) = Some (text, range) ->
  exists k1 l1 a k2 l2 b,
    CM.locates doc (CM.from sel) k1 l1 a /\ CM.locates doc (CM.to sel) k2 l2 b.
Proof.
  intros doc sel. unfold readTransactionState. simpl. fold doc sel.
  destruct (CM.lineAt doc (CM.from sel)) as [L1|] eqn:E1; [|discriminate].
  destruct (CM.lineAt doc (CM.to sel)) as [L2|] eqn:E2; [|discriminate].
  intros _.
  destruct (lineAt_inv _ _ _ E1) as (k1 & Hk1 & _ & Hf1 & Ht1 & Hin1).
  destruct (lineAt_inv _ _ _ E2) as (k2 & Hk2 & _ & Hf2 & Ht2 & Hin2).
  exists k1, (CM.line_text L1), (CM.from sel - CM.lineStart doc k1),
         k2, (CM.line_text L2), (CM.to sel - CM.lineStart doc k2).
  unfold CM.locates. repeat split; try done; lia.
Qed.

(** The range a transaction-state read produces is coherent. *)
Lemma readTransactionState_coherent cmEditor text range :
  readTransactionState cmEditor = Some (text, range) -> coherent range.
Proof.
  destruct cmEditor as [v|]; [|discriminate]. intros H.
  destruct (readTransactionState_inv v text range H)
    as (k1 & l1 & a & k2 & l2 & b & H1 & H2).
  rewrite (readTransactionState_at v _ _ _ _ _ _ H1 H2) in H.
  injection H as _ <-. unfold coherent. simpl. rewrite empty_iff. split.
  - intros Hem. rewrite <- Hem in H2.
    destruct (locates_unique _ _ _ _ _ _ _ _ H1 H2) as (-> & _ & ->). done.
  - intros Heq. injection Heq as Hk Hab.
    destruct H1 as (_ & _ & ->). destruct H2 as (_ & _ & ->).
    assert (k1 = k2) by lia. subst. done.
Qed.

End ReadFacts.

(** ** The selection query *)
Section QueryFacts.
Import Obsidian WM.

(** With a qualifying focused view the query reads its editor, reports the
    active file, and touches neither the cache nor the sink. *)
Lemma getCurrentSelection_live (app : App) (wm : WorkspaceManager) r e f :
  liveSource app = Some (r, e, f) ->
  getCurrentSelection app wm =
  (Some (mkSnapshot (readEditor e).1 (Some (path f)) (readEditor e).2 false), wm, []).
Proof.
  unfold liveSource, getCurrentSelection.
  destruct (getActiveViewOfType app) as [[r' v]|]; simpl; [|discriminate].
  destruct (editor v) as [e'|]; simpl; [|discriminate].
  destruct (activeFile app) as [f'|]; simpl; [|discriminate].
  intros [= -> -> ->]. by destruct (readEditor e).
Qed.

(** Without one, the query is answered from the cache. *)
Lemma getCurrentSelection_no_live (app : App) :
  liveSource app = None -> getCurrentSelection app = fallBackToCache app.
Proof.
  unfold liveSource, getCurrentSelection.
  destruct (getActiveViewOfType app) as [[r' v]|]; simpl; [|done].
  destruct (editor v) as [e'|]; simpl; [|done].
  destruct (activeFile app) as [f'|]; simpl; [discriminate|done].
Qed.

Lemma fallBackToCache_some (app : App) (wm : WorkspaceManager) c :
  cachedSelectionState wm = Some c ->
  fallBackToCache app wm =
  (Some match rereadCachedView app c with
        | Some (text, range) => mkSnapshot text (Some (cached_filePath c)) range false
        | None => mkSnapshot (cached_text c) (Some (cached_filePath c))
                             (cached_selection c) true
        end, wm, []).
Proof.
  intros H. unfold fallBackToCache, bind, readCache. rewrite H.
  by destruct (rereadCachedView app c) as [[text range]|].
Qed.

Lemma fallBackToCache_none (app : App) (wm : WorkspaceManager) :
  cachedSelectionState wm = None -> fallBackToCache app wm = (None, wm, []).
Proof. intros H. unfold fallBackToCache, bind, readCache. by rewrite H. Qed.

(** The query never writes the cache and never calls the sink. *)
Lemma getCurrentSelection_pure (app : App) (wm : WorkspaceManager) :
  after (getCurrentSelection app) wm = wm /\ sent (getCurrentSelection app) wm = [].
Proof.
  unfold after, sent.
  destruct (liveSource app) as [[[r e] f]|] eqn:L.
  - by rewrite (getCurrentSelection_live app wm r e f L).
  - rewrite (getCurrentSelection_no_live app L).
    destruct (cachedSelectionState wm) as [c|] eqn:C.
    + by rewrite (fallBackToCache_some app wm c C).
    + by rewrite (fallBackToCache_none app wm C).
Qed.

Lemma readEditor_success (e : Editor) text range :
  readTransactionState (cm e) = Some (text, range) -> readEditor e = (text, range).
Proof. unfold readEditor. by intros ->. Qed.

Lemma readEditor_fallback (e : Editor) :
  readTransactionState (cm e) = None -> readEditor e = readPlainAccessor e.
Proof. unfold readEditor. by intros ->. Qed.

End QueryFacts.

(** ** C5: offsets become lines and columns *)
Section Conversion.
Import Obsidian WM.

(** C5. A successful transaction-state read of the focused editor turns the
    offsets [from] and [to] of the main selection into 0-based lines and
    columns: when [from] is at column [a] of line [k1] and [to] at column
    [b] of line [k2] (each line containing its offset, the column being the
    offset minus the start of the line), the snapshot has the range
    [{start:{k1,a}, end:{k2,b}}], [isEmpty] tells whether the selection is
    empty, the text is the text of the document between [from] and [to],
    and within one line it is the substring between the two columns. Every
    read that succeeds is of this form. *)
Theorem C5_offsets_to_line_character
    (app : App) (wm : WorkspaceManager) r e f (v : CM.EditorView) :
  let doc := CM.doc (CM.state v) in
  let sel := CM.main (CM.state v) in
  liveSource app = Some (r, e, f) ->
  cm e = Some v ->
  (forall (k1 : nat) (l1 : string) (a : Z) (k2 : nat) (l2 : string) (b : Z),
      CM.locates doc (CM.from sel) k1 l1 a ->
      CM.locates doc (CM.to sel) k2 l2 b ->
      result (getCurrentSelection app) wm =
        Some (mkSnapshot (CM.sliceString doc (CM.from sel) (CM.to sel))
                (Some (path f))
                (Mcp.mkSelectionRange (Mcp.mkPosition (Z.of_nat k1) a)
                                      (Mcp.mkPosition (Z.of_nat k2) b)
                                      (CM.empty sel))
                false)
      /\ (k1 = k2 ->
          CM.sliceString doc (CM.from sel) (CM.to sel) =
          substring (Z.to_nat a) (Z.to_nat (b - a)) l1))
  /\ (forall text range,
        readTransactionState (cm e) = Some (text, range) ->
        exists k1 l1 a k2 l2 b,
          CM.locates doc (CM.from sel) k1 l1 a
          /\ CM.locates doc (CM.to sel) k2 l2 b).
Proof.
  intros doc sel L Hcm. split.
  - intros k1 l1 a k2 l2 b H1 H2. split.
    + unfold result. rewrite (getCurrentSelection_live app wm r e f L). simpl.
      rewrite (readEditor_success e _ _
                 (eq_trans (f_equal readTransactionState Hcm)
                           (readTransactionState_at v _ _ _ _ _ _ H1 H2))).
      reflexivity.
    + intros <-. destruct H1 as (Hk & Ha & E1). destruct H2 as (Hk2 & Hb & E2).
      assert (l2 = l1) as -> by congruence.
      pose proof (from_le_to sel). rewrite E1, E2.
      apply sliceString_line; [done|lia..].
  - intros text range. rewrite Hcm. apply readTransactionState_inv.
Qed.

(** The selection of characters 5 to 10 of line 2. *)
Lemma C5_witness_line2_chars_5_10 :
  result (getCurrentSelection Examples.appEditing) (mkManager None) =
    Some (mkSnapshot "d par" (Some "notes/today.md")
            (Mcp.mkSelectionRange (Mcp.mkPosition 2 5) (Mcp.mkPosition 2 10) false)
            false)
  /\ "d par" = substring 5 5 "second paragraph".
Proof.
  pose proof (proj1 (C5_offsets_to_line_character Examples.appEditing
                       (mkManager None) 1%nat Examples.editor0 Examples.file0
                       Examples.view0 eq_refl eq_refl)
                2%nat "second paragraph" 5 2%nat "second paragraph" 10) as H.
  simpl in H.
  destruct H as [H1 H2];
    [ repeat split; [vm_compute; discriminate | vm_compute; discriminate]
    | repeat split; [vm_compute; discriminate | vm_compute; discriminate]
    | ].
  split; [exact H1 | exact (H2 eq_refl)].
Defined.

End Conversion.

(** ** C4: [isEmpty] and the two ends of a range *)
Section Coherence.
Import Obsidian WM.

Lemma readPlainAccessor_coherent (editor : Editor) :
  accessorsAgree editor -> coherent (readPlainAccessor editor).2.
Proof.
  intros Hagree. unfold readPlainAccessor, coherent.
  destruct (Z.ltb_spec 0 (CM.strlen (getSelection editor))) as [Hlen|Hlen]; simpl.
  - split; [discriminate|]. intros Heq. exfalso.
    assert (Hne : getSelection editor <> "")
      by (intros E; rewrite E in Hlen; unfold CM.strlen in Hlen; simpl in Hlen; lia).
    apply (Hagree Hne).
    destruct (getCursor editor cursorFrom), (getCursor editor cursorTo).
    simpl in Heq. congruence.
  - done.
Qed.

Lemma rereadCachedView_coherent (app : App) (c : CachedSelectionState) text range :
  rereadCachedView app c = Some (text, range) -> coherent range.
Proof.
  unfold rereadCachedView.
  destruct (cached_view c) as [r|]; simpl; [|discriminate].
  destruct (views app !! r) as [v|]; simpl; [|discriminate].
  destruct (editor v) as [e|]; simpl; [|discriminate].
  apply readTransactionState_coherent.
Qed.

Lemma readEditor_coherent (editor : Editor) :
  accessorsAgree editor -> coherent (readEditor editor).2.
Proof.
  intros Hagree. unfold readEditor.
  destruct (readTransactionState (cm editor)) as [[text range]|] eqn:E.
  - simpl. by apply (readTransactionState_coherent _ _ _ E).
  - by apply readPlainAccessor_coherent.
Qed.

(** The accessors of an editor that answers from one document and one
    selection agree. *)
Lemma plainEditorOver_agree (st : CM.EditorState) :
  is_Some (CM.lineAt (CM.doc st) (CM.from (CM.main st))) ->
  is_Some (CM.lineAt (CM.doc st) (CM.to (CM.main st))) ->
  accessorsAgree (Examples.plainEditorOver st).
Proof.
  intros [L1 E1] [L2 E2] Hne. simpl in *. unfold Examples.positionAt.
  rewrite E1, E2. intros Heq. apply Hne.
  destruct (lineAt_inv _ _ _ E1) as (k1 & _ & Hn1 & Hf1 & _).
  destruct (lineAt_inv _ _ _ E2) as (k2 & _ & Hn2 & Hf2 & _).
  injection Heq as Hn Hc.
  assert (k1 = k2) by lia. subst k2.
  assert (CM.from (CM.main st) = CM.to (CM.main st)) as -> by lia.
  unfold CM.sliceString. rewrite Z.sub_diag. apply substring_none.
Qed.

(** C4, as amended. A range produced by a transaction-state read (of the
    focused editor or through the view kept in the cache) has
    [isEmpty = true] exactly when its start and its end are the same line
    and character. A range produced by the fallback to the editor's own
    accessors has equal ends whenever [isEmpty = true]; the converse holds
    for an editor whose accessors agree (a non-empty [getSelection()] comes
    with different ["from"] and ["to"] cursors). *)
Theorem C4_isEmpty_iff_start_eq_end
    (editor : Editor) (app : App) (c : CachedSelectionState) :
  (forall text range,
      readTransactionState (cm editor) = Some (text, range) -> coherent range)
  /\ (forall text range,
        rereadCachedView app c = Some (text, range) -> coherent range)
  /\ (Mcp.isEmpty (readPlainAccessor editor).2 = true ->
      Mcp.start (readPlainAccessor editor).2 = Mcp.end_ (readPlainAccessor editor).2)
  /\ (accessorsAgree editor ->
      coherent (readPlainAccessor editor).2 /\ coherent (readEditor editor).2).
Proof.
  split; [|split; [|split]].
  - intros text range. apply readTransactionState_coherent.
  - intros text range. apply rereadCachedView_coherent.
  - unfold readPlainAccessor.
    by destruct (0 <? CM.strlen (getSelection editor)).
  - intros Hagree. split.
    + by apply readPlainAccessor_coherent.
    + by apply readEditor_coherent.
Qed.

(** An editor read through its accessors, and the note re-read through the
    cache while the side panel is active. *)
Lemma C4_witness_plain_and_reread :
  accessorsAgree Examples.editorPlain
  /\ coherent (readPlainAccessor Examples.editorPlain).2
  /\ coherent (readEditor Examples.editor0).2
  /\ (forall text range,
        rereadCachedView Examples.appPanel Examples.cached0 = Some (text, range) ->
        coherent range).
Proof.
  assert (A : accessorsAgree Examples.editorPlain)
    by (intros _; simpl; discriminate).
  assert (A0 : accessorsAgree Examples.editor0)
    by (intros H; exfalso; apply H; reflexivity).
  split; [exact A|].
  destruct (C4_isEmpty_iff_start_eq_end Examples.editorPlain Examples.appPanel
              Examples.cached0) as (_ & Hr & _ & Hp).
  destruct (C4_isEmpty_iff_start_eq_end Examples.editor0 Examples.appPanel
              Examples.cached0) as (_ & _ & _ & He).
  split; [exact (proj1 (Hp A))|]. split; [exact (proj2 (He A0))|exact Hr].
Defined.

(** The claim as first stated fails on the fallback path: [isEmpty] is
    taken from the length of [getSelection()] and the two ends from
    [getCursor], so an editor that reports a text with a bare cursor gets a
    range that is not empty and has equal ends. *)
Lemma C4_counterexample_text_with_bare_cursor :
  let range := Mcp.mkSelectionRange (Mcp.mkPosition 0 4) (Mcp.mkPosition 0 4) false in
  readPlainAccessor Examples.editorMulti = ("abc", range)
  /\ result (getCurrentSelection Examples.appMulti) initial =
     Some (mkSnapshot "abc" (Some "notes/today.md") range false)
  /\ Mcp.isEmpty range = false
  /\ Mcp.start range = Mcp.end_ range
  /\ ~ coherent range.
Proof.
  repeat split; try reflexivity.
  intros [_ H]. specialize (H eq_refl). discriminate H.
Qed.

End Coherence.

(** ** C1, C2: the source of a snapshot and the cache *)
Section TrackerClaims.
Import Obsidian WM.
Variable util : string -> string -> string.

(** With an active file, [sendSelectionContext] sends what it read, and
    writes the cache when there is an active [MarkdownView]. *)
Lemma sendSelectionContext_active (app : App) (wm : WorkspaceManager) editor f :
  activeFile app = Some f ->
  sendSelectionContext util app editor wm =
  (tt,
   match getActiveViewOfType app with
   | Some (r, _) =>
       mkManager (Some (mkCached (readEditor editor).1 (path f)
                          (fileUrlOf util app (path f)) (readEditor editor).2
                          (Some r) (now app)))
   | None => wm
   end,
   [Mcp.mkNotification "2.0" "selection_changed"
      (Mcp.mkParams (readEditor editor).1 (Some (path f))
         (Some (fileUrlOf util app (path f))) (readEditor editor).2)]).
Proof.
  intros Hf. unfold sendSelectionContext. rewrite Hf.
  destruct (readEditor editor) as [selection selectionRange]. simpl.
  by destruct (getActiveViewOfType app) as [[r v]|].
Qed.

Lemma liveSource_view (app : App) r e f :
  liveSource app = Some (r, e, f) ->
  exists v, getActiveViewOfType app = Some (r, v) /\ editor v = Some e
            /\ activeFile app = Some f.
Proof.
  unfold liveSource.
  destruct (getActiveViewOfType app) as [[r' v]|]; simpl; [|discriminate].
  destruct (editor v) as [e'|] eqn:He; simpl; [|discriminate].
  destruct (activeFile app) as [f'|]; simpl; [|discriminate].
  intros [= -> -> ->]. by exists v.
Qed.

(** C1, as amended. When the transaction-state read of the focused view's
    editor succeeds, [getCurrentSelection] returns a snapshot built from
    that read with [fromCache = false] and leaves [cachedSelectionState] as
    it was; it is [sendSelectionContext] that overwrites the cache with a
    state built from the read and tagged with the active view and the
    current timestamp. *)
Theorem C1_query_is_live_cache_written_on_selection_change
    (app : App) (wm : WorkspaceManager) r e f text range :
  liveSource app = Some (r, e, f) ->
  readTransactionState (cm e) = Some (text, range) ->
  result (getCurrentSelection app) wm =
    Some (mkSnapshot text (Some (path f)) range false)
  /\ after (getCurrentSelection app) wm = wm
  /\ cachedSelectionState (after (sendSelectionContext util app e) wm) =
     Some (mkCached text (path f) (fileUrlOf util app (path f)) range
                    (Some r) (now app)).
Proof.
  intros L Hread. split; [|split].
  - unfold result. rewrite (getCurrentSelection_live app wm r e f L).
    by rewrite (readEditor_success e text range Hread).
  - apply getCurrentSelection_pure.
  - destruct (liveSource_view app r e f L) as (v & Hv & _ & Hf).
    unfold after. rewrite (sendSelectionContext_active app wm e f Hf), Hv.
    by rewrite (readEditor_success e text range Hread).
Qed.

(** C2. Without a qualifying focused view and with a cache, a re-read
    through the cached view that succeeds gives [fromCache = false]; when
    it fails (the reference is unusable or the read throws) the stored
    text, file path and selection are returned as they are with
    [fromCache = true]; and a read through a live focused view, fallback
    included, gives [fromCache = false]. *)
Theorem C2_fromCache_tells_the_source (app : App) (wm : WorkspaceManager) :
  (forall c, cachedSelectionState wm = Some c -> liveSource app = None ->
     (forall text range, rereadCachedView app c = Some (text, range) ->
        result (getCurrentSelection app) wm =
          Some (mkSnapshot text (Some (cached_filePath c)) range false))
     /\ (rereadCachedView app c = None ->
        result (getCurrentSelection app) wm =
          Some (mkSnapshot (cached_text c) (Some (cached_filePath c))
                           (cached_selection c) true)))
  /\ (forall r e f, liveSource app = Some (r, e, f) ->
        (forall text range, readTransactionState (cm e) = Some (text, range) ->
           result (getCurrentSelection app) wm =
             Some (mkSnapshot text (Some (path f)) range false))
        /\ (readTransactionState (cm e) = None ->
           result (getCurrentSelection app) wm =
             Some (mkSnapshot (readPlainAccessor e).1 (Some (path f))
                              (readPlainAccessor e).2 false))).
Proof.
  split.
  - intros c Hc L. unfold result.
    rewrite (getCurrentSelection_no_live app L), (fallBackToCache_some app wm c Hc).
    split; [intros text range Hr | intros Hr]; by rewrite Hr.
  - intros r e f L. unfold result.
    rewrite (getCurrentSelection_live app wm r e f L). simpl. split.
    + intros text range Hr. by rewrite (readEditor_success e text range Hr).
    + intros Hr. by rewrite (readEditor_fallback e Hr).
Qed.

(** The ways in which the cached reference is unusable. *)
Lemma rereadCachedView_unusable (app : App) (c : CachedSelectionState) :
  cached_view c = None
  \/ (exists r, cached_view c = Some r /\ views app !! r = None)
  \/ (exists r v, cached_view c = Some r /\ views app !! r = Some v
                  /\ editor v = None)
  \/ (exists r v e, cached_view c = Some r /\ views app !! r = Some v
                    /\ editor v = Some e /\ cm e = None) ->
  rereadCachedView app c = None.
Proof.
  unfold rereadCachedView.
  intros [H | [(r & H1 & H2) | [(r & v & H1 & H2 & H3) | (r & v & e & H1 & H2 & H3 & H4)]]].
  - by rewrite H.
  - by rewrite H1; simpl; rewrite H2.
  - by rewrite H1; simpl; rewrite H2; simpl; rewrite H3.
  - by rewrite H1; simpl; rewrite H2; simpl; rewrite H3; simpl; rewrite H4.
Qed.

End TrackerClaims.

(** The query in [Examples.appEditing], starting from an empty cache. *)
Lemma C1_witness_editing :
  WM.liveSource Examples.appEditing =
    Some (1%nat, Examples.editor0, Examples.file0)
  /\ WM.readTransactionState (Obsidian.cm Examples.editor0) =
       Some ("d par", Examples.range0)
  /\ WM.result (WM.getCurrentSelection Examples.appEditing) (WM.mkManager None) =
       Some (WM.mkSnapshot "d par" (Some "notes/today.md") Examples.range0 false)
  /\ WM.after (WM.getCurrentSelection Examples.appEditing) (WM.mkManager None) =
       WM.mkManager None
  /\ WM.cachedSelectionState
       (WM.after (WM.sendSelectionContext Examples.joinPath Examples.appEditing
                    Examples.editor0) (WM.mkManager None)) =
       Some Examples.cached0.
Proof.
  assert (L : WM.liveSource Examples.appEditing =
              Some (1%nat, Examples.editor0, Examples.file0)) by reflexivity.
  assert (R : WM.readTransactionState (Obsidian.cm Examples.editor0) =
              Some ("d par", Examples.range0)) by reflexivity.
  split; [exact L|]. split; [exact R|].
  exact (C1_query_is_live_cache_written_on_selection_change Examples.joinPath
           Examples.appEditing (WM.mkManager None) 1%nat Examples.editor0
           Examples.file0 "d par" Examples.range0 L R).
Defined.

(** The claim as first stated fails: in [Examples.appEditing] the
    transaction-state read of the focused editor succeeds, and after the
    query an empty cache is still empty and an older cached state is still
    the one in the cache. *)
Lemma C1_counterexample_query_leaves_cache :
  WM.liveSource Examples.appEditing =
    Some (1%nat, Examples.editor0, Examples.file0)
  /\ WM.readTransactionState (Obsidian.cm Examples.editor0) =
       Some ("d par", Examples.range0)
  /\ WM.cachedSelectionState
       (WM.after (WM.getCurrentSelection Examples.appEditing) (WM.mkManager None)) =
     None
  /\ WM.cachedSelectionState
       (WM.after (WM.getCurrentSelection Examples.appEditing)
                 (WM.mkManager (Some Examples.stale0))) =
     Some Examples.stale0
  /\ Some Examples.stale0 <> Some Examples.cached0.
Proof. repeat split; try reflexivity. discriminate. Qed.

(** The side panel is active: the note is re-read through the cache; once
    the note is closed the stored fields are returned. *)
Lemma C2_witness_panel_and_closed :
  WM.result (WM.getCurrentSelection Examples.appPanel)
            (WM.mkManager (Some Examples.cached0)) =
    Some (WM.mkSnapshot "d par" (Some "notes/today.md") Examples.range0 false)
  /\ WM.result (WM.getCurrentSelection Examples.appClosed)
               (WM.mkManager (Some Examples.cached0)) =
    Some (WM.mkSnapshot "d par" (Some "notes/today.md") Examples.range0 true).
Proof.
  split.
  - exact (proj1 (proj1 (C2_fromCache_tells_the_source Examples.appPanel
                           (WM.mkManager (Some Examples.cached0)))
                        Examples.cached0 eq_refl eq_refl)
                 "d par" Examples.range0 eq_refl).
  - exact (proj2 (proj1 (C2_fromCache_tells_the_source Examples.appClosed
                           (WM.mkManager (Some Examples.cached0)))
                        Examples.cached0 eq_refl eq_refl)
                 eq_refl).
Defined.

(** ** C3, C6, C10: what is broadcast, and when the cache is written *)
Section BroadcasterClaims.
Import Obsidian WM.
Variable util : string -> string -> string.

(** [sendCurrentFileContext] sends one notification and keeps the cache:
    the snapshot of the query when it has a truthy file path, the empty
    shape otherwise. *)
Lemma sendCurrentFileContext_eq (app : App) (wm : WorkspaceManager) :
  sendCurrentFileContext util app wm =
  (tt, wm,
   [Mcp.mkNotification "2.0" "selection_changed"
      match result (getCurrentSelection app) wm with
           | Some cs =>
               match snap_filePath cs with
               | Some fp =>
                   if truthy fp
                   then Mcp.mkParams (snap_text cs) (Some fp)
                          (Some (fileUrlOf util app fp)) (snap_selection cs)
                   else noSelectionParams util app
               | None => noSelectionParams util app
               end
           | None => noSelectionParams util app
           end]).
Proof.
  destruct (getCurrentSelection_pure app wm) as [Ha Hs].
  unfold sendCurrentFileContext, bind, result, after, sent in *.
  destruct (getCurrentSelection app wm) as [[res wm'] out]. simpl in *. subst.
  destruct res as [cs|]; [|reflexivity].
  destruct (snap_filePath cs) as [fp|]; [|reflexivity].
  by destruct (truthy fp).
Qed.

(** C3. When the query yields no snapshot with a non-null file path, the
    notification sent by [sendCurrentFileContext] has an empty text, the
    path of the active file or [null], and the zero-width range at (0,0)
    with [isEmpty = true]: the selection is present, never [null]. *)
Theorem C3_no_snapshot_sends_empty_shape (app : App) (wm : WorkspaceManager) :
  (forall snap, result (getCurrentSelection app) wm = Some snap ->
                snap_filePath snap = None) ->
  exists n,
    sent (sendCurrentFileContext util app) wm = [n]
    /\ Mcp.text (Mcp.params n) = ""
    /\ Mcp.filePath (Mcp.params n) = (path <$> activeFile app)
    /\ Mcp.selection (Mcp.params n) =
       Mcp.mkSelectionRange (Mcp.mkPosition 0 0) (Mcp.mkPosition 0 0) true.
Proof.
  intros H. unfold sent. rewrite sendCurrentFileContext_eq. simpl.
  eexists. split; [reflexivity|].
  destruct (result (getCurrentSelection app) wm) as [cs|] eqn:E.
  - rewrite (H cs eq_refl). simpl. by destruct (activeFile app).
  - simpl. by destruct (activeFile app).
Qed.

(** With neither a live source nor a cache the query yields nothing. *)
Lemma no_source_no_snapshot (app : App) (wm : WorkspaceManager) :
  liveSource app = None -> cachedSelectionState wm = None ->
  result (getCurrentSelection app) wm = None.
Proof.
  intros L C. unfold result.
  by rewrite (getCurrentSelection_no_live app L), (fallBackToCache_none app wm C).
Qed.

(** C6. When the active view becomes a view that is not a [MarkdownView]
    while the cache holds a state (whose file path is not the empty
    string), the listener sends the selection of the cached view: the one
    re-read through the cached reference when that succeeds, the stored one
    otherwise, with the cached file path; not the empty shape. *)
Theorem C6_leaving_the_editor_resends_cached_selection
    (app : App) (wm : WorkspaceManager) (c : CachedSelectionState) r v :
  activeLeaf app = Some r -> views app !! r = Some v -> isMarkdownView v = false ->
  cachedSelectionState wm = Some c ->
  cached_filePath c <> "" ->
  sent (listener util app ActiveLeafChange) wm =
    [Mcp.mkNotification "2.0" "selection_changed"
            (Mcp.mkParams
               (match rereadCachedView app c with
                | Some (text, _) => text
                | None => cached_text c
                end)
               (Some (cached_filePath c))
               (Some (fileUrlOf util app (cached_filePath c)))
               (match rereadCachedView app c with
                | Some (_, range) => range
                | None => cached_selection c
                end))]
  /\ after (listener util app ActiveLeafChange) wm = wm.
Proof.
  intros Hl Hv Hm Hc Hp.
  assert (L : liveSource app = None).
  { unfold liveSource, getActiveViewOfType. rewrite Hl. simpl. rewrite Hv. simpl.
    by rewrite Hm. }
  assert (T : truthy (cached_filePath c) = true).
  { unfold truthy. destruct (String.eqb_spec (cached_filePath c) ""); done. }
  unfold sent, after. simpl. rewrite sendCurrentFileContext_eq. simpl.
  split; [|reflexivity]. unfold result.
  rewrite (getCurrentSelection_no_live app L), (fallBackToCache_some app wm c Hc).
  simpl. destruct (rereadCachedView app c) as [[text range]|]; simpl; by rewrite T.
Qed.

Lemma checkAndSendSelection_cases (app : App) (wm : WorkspaceManager) :
  checkAndSendSelection util app wm = (tt, wm, [])
  \/ exists editor, checkAndSendSelection util app wm =
                    sendSelectionContext util app editor wm.
Proof.
  unfold checkAndSendSelection.
  destruct (isSelectionInEditableNote app); simpl; [|by left].
  destruct (activeLeaf app) as [r|]; simpl; [|by left].
  destruct (views app !! r) as [v|]; simpl; [|by left].
  destruct (editor v) as [e|]; [right; by exists e | by left].
Qed.

Lemma sendSelectionContext_no_file (app : App) (wm : WorkspaceManager) editor :
  activeFile app = None -> sendSelectionContext util app editor wm = (tt, wm, []).
Proof. intros H. unfold sendSelectionContext. by rewrite H. Qed.

Lemma sendSelectionContext_no_view (app : App) (wm : WorkspaceManager) editor :
  getActiveViewOfType app = None ->
  after (sendSelectionContext util app editor) wm = wm.
Proof.
  intros H. unfold after. destruct (activeFile app) as [f|] eqn:Hf.
  - by rewrite (sendSelectionContext_active util app wm editor f Hf), H.
  - by rewrite (sendSelectionContext_no_file app wm editor Hf).
Qed.

(** A listener that changes the manager is the selection-change one, run
    with an active file and an active [MarkdownView]. *)
Lemma listener_changes_cache (app : App) (wm : WorkspaceManager) ev :
  after (listener util app ev) wm <> wm ->
  ev = DomSelectionChange
  /\ is_Some (activeFile app) /\ is_Some (getActiveViewOfType app).
Proof.
  assert (Keep : after (sendCurrentFileContext util app) wm = wm)
    by (unfold after; by rewrite sendCurrentFileContext_eq).
  intros Hne. destruct ev as [| [file|] |]; simpl in Hne; try done.
  split; [done|].
  destruct (checkAndSendSelection_cases app wm) as [E | [editor E]];
    unfold after in Hne; rewrite E in Hne; [done|].
  destruct (activeFile app) as [f|] eqn:Hf;
    [|by rewrite (sendSelectionContext_no_file app wm editor Hf) in Hne].
  split; [by eexists|].
  destruct (getActiveViewOfType app) as [p|] eqn:Hv; [by eexists|].
  exfalso. apply Hne. apply (sendSelectionContext_no_view app wm editor Hv).
Qed.

(** The other listeners, and the selection-change one without an active
    file or without an active [MarkdownView], leave the manager as it was. *)
Lemma listener_keeps_cache (app : App) (wm : WorkspaceManager) ev :
  ev <> DomSelectionChange \/ activeFile app = None
  \/ getActiveViewOfType app = None ->
  after (listener util app ev) wm = wm.
Proof.
  intros H. destruct ev as [| [file|] |]; simpl;
    try (unfold after; by rewrite sendCurrentFileContext_eq); [done|].
  destruct (checkAndSendSelection_cases app wm) as [E | [editor E]];
    unfold after; rewrite E; [done|].
  destruct H as [H | [H | H]]; [done| |].
  - by rewrite (sendSelectionContext_no_file app wm editor H).
  - apply (sendSelectionContext_no_view app wm editor H).
Qed.

(** C10. Reached without an active file, [sendSelectionContext] returns at
    once: nothing is sent and the cache is as it was, and so for the whole
    selection-change listener. The cache is written nowhere else than in
    [sendSelectionContext], and there only with an active [MarkdownView]:
    a listener that changes the manager is the selection-change one, run
    with an active file and an active [MarkdownView]. *)
Theorem C10_cache_written_only_with_active_markdown_view
    (app : App) (wm : WorkspaceManager) :
  (forall editor, activeFile app = None ->
     sendSelectionContext util app editor wm = (tt, wm, []))
  /\ (activeFile app = None -> listener util app DomSelectionChange wm = (tt, wm, []))
  /\ (forall editor, getActiveViewOfType app = None ->
        after (sendSelectionContext util app editor) wm = wm)
  /\ (forall ev, after (listener util app ev) wm <> wm ->
        ev = DomSelectionChange
        /\ is_Some (activeFile app) /\ is_Some (getActiveViewOfType app))
  /\ after (getCurrentSelection app) wm = wm
  /\ after (sendCurrentFileContext util app) wm = wm.
Proof.
  split; [|split; [|split; [|split; [|split]]]].
  - intros editor. apply sendSelectionContext_no_file.
  - intros H. simpl.
    destruct (checkAndSendSelection_cases app wm) as [E | [editor E]]; [done|].
    by rewrite E, (sendSelectionContext_no_file app wm editor H).
  - intros editor. apply sendSelectionContext_no_view.
  - intros ev. apply listener_changes_cache.
  - apply getCurrentSelection_pure.
  - unfold after. by rewrite sendCurrentFileContext_eq.
Qed.

End BroadcasterClaims.

(** No active file and no cache: the empty shape with a null path. *)
Lemma C3_witness_nothing_open :
  (forall snap,
      WM.result (WM.getCurrentSelection Examples.appClosed) (WM.mkManager None) =
      Some snap -> WM.snap_filePath snap = None)
  /\ exists n,
      WM.sent (WM.sendCurrentFileContext Examples.joinPath Examples.appClosed)
              (WM.mkManager None) = [n]
      /\ Mcp.text (Mcp.params n) = ""
      /\ Mcp.filePath (Mcp.params n) = None
      /\ Mcp.selection (Mcp.params n) =
         Mcp.mkSelectionRange (Mcp.mkPosition 0 0) (Mcp.mkPosition 0 0) true.
Proof.
  assert (H : forall snap,
             WM.result (WM.getCurrentSelection Examples.appClosed)
                       (WM.mkManager None) = Some snap ->
             WM.snap_filePath snap = None) by (intros snap E; discriminate E).
  split; [exact H|].
  exact (C3_no_snapshot_sends_empty_shape Examples.joinPath Examples.appClosed
           (WM.mkManager None) H).
Defined.

Example nothing_open_notification :
  WM.sent (WM.sendCurrentFileContext Examples.joinPath Examples.appClosed)
          (WM.mkManager None) =
  [Mcp.mkNotification "2.0" "selection_changed"
     (Mcp.mkParams "" None None
        (Mcp.mkSelectionRange (Mcp.mkPosition 0 0) (Mcp.mkPosition 0 0) true))].
Proof. reflexivity. Qed.

(** The side panel becomes the active view while the cache holds the
    selection of the note. *)
Lemma C6_witness_switch_to_panel :
  WM.sent (WM.listener Examples.joinPath Examples.appPanel WM.ActiveLeafChange)
          (WM.mkManager (Some Examples.cached0)) =
    [Mcp.mkNotification "2.0" "selection_changed"
       (Mcp.mkParams "d par" (Some "notes/today.md")
          (Some "file:///vault/notes/today.md") Examples.range0)]
  /\ WM.after (WM.listener Examples.joinPath Examples.appPanel WM.ActiveLeafChange)
              (WM.mkManager (Some Examples.cached0)) =
     WM.mkManager (Some Examples.cached0).
Proof.
  refine (C6_leaving_the_editor_resends_cached_selection Examples.joinPath
            Examples.appPanel (WM.mkManager (Some Examples.cached0))
            Examples.cached0 2%nat Examples.panel0 eq_refl eq_refl eq_refl eq_refl _).
  discriminate.
Defined.

(** The note is closed and no file is active, but the cache is not empty:
    the query yields the stored snapshot, and that is what is sent. *)
Example closed_note_with_cache :
  WM.sent (WM.listener Examples.joinPath Examples.appClosed WM.ActiveLeafChange)
          (WM.mkManager (Some Examples.cached0)) =
  [Mcp.mkNotification "2.0" "selection_changed"
     (Mcp.mkParams "d par" (Some "notes/today.md")
        (Some "file:///vault/notes/today.md") Examples.range0)].
Proof. reflexivity. Qed.

(** A selection made in the note, then a switch to the side panel: the
    second notification repeats the selection of the first. *)
Example select_then_switch :
  let wm1 := WM.after (WM.listener Examples.joinPath Examples.appSelecting
                         WM.DomSelectionChange) (WM.mkManager None) in
  wm1 = WM.mkManager (Some Examples.cached0)
  /\ WM.sent (WM.listener Examples.joinPath Examples.appSelecting
                WM.DomSelectionChange) (WM.mkManager None) =
     WM.sent (WM.listener Examples.joinPath Examples.appPanel
                WM.ActiveLeafChange) wm1.
Proof. split; reflexivity. Qed.

(** The selection-change listener without an active file, and the listener
    that does write the cache. *)
Lemma C10_witness_no_active_file :
  WM.listener Examples.joinPath Examples.appNoFile WM.DomSelectionChange
              (WM.mkManager (Some Examples.cached0)) =
    (tt, WM.mkManager (Some Examples.cached0), [])
  /\ WM.sendSelectionContext Examples.joinPath Examples.appNoFile Examples.editor0
                             (WM.mkManager (Some Examples.cached0)) =
    (tt, WM.mkManager (Some Examples.cached0), []).
Proof.
  destruct (C10_cache_written_only_with_active_markdown_view Examples.joinPath
              Examples.appNoFile (WM.mkManager (Some Examples.cached0)))
    as (H1 & H2 & _).
  split; [exact (H2 eq_refl) | exact (H1 Examples.editor0 eq_refl)].
Defined.

Example gating_examples :
  WM.isSelectionInEditableNote Examples.appSelecting = true
  /\ WM.isSelectionInEditableNote Examples.appPanel = false
  /\ WM.isSelectionInEditableNote
       (Obsidian.mkApp (Some 1%nat) (Some Examples.file0) ∅ None "/" 0
                       (Some Examples.domInModal)) = false.
Proof. repeat split. Qed.

(** ** C7, C9: the decoration field and the focus handler *)
Section OverlayClaims.
Import Highlight.

Lemma scanEffects_foreign (tags : list nat) effs tr rest :
  scanEffects (List.map foreignEffect tags ++ effs) tr rest = scanEffects effs tr rest.
Proof. induction tags as [|t tags IH]; simpl; [reflexivity | exact IH]. Qed.

Lemma range_nonempty (d : Decoration) (from to : Z) :
  from < to -> range d from to = Some (mkRange from to d).
Proof. intros H. unfold range. by destruct (Z.leb_spec to from); [lia|]. Qed.

(** The field after a transaction whose first [setSelectionHighlight]
    effect carries [{from, to}]. *)
Lemma update_set (decorations : DecorationSet) tags from to rest changes state :
  update decorations
    (mkTransaction (List.map foreignEffect tags
                    ++ setSelectionHighlight (Some (from, to)) :: rest)
                   changes state) =
  Some (if (from <? to) && (to <=? CM.length (CM.doc state))
        then [mkRange from to selectionMark] else none).
Proof.
  unfold update. simpl. rewrite scanEffects_foreign. simpl.
  destruct (Z.ltb_spec from to); simpl; [|reflexivity].
  destruct (to <=? CM.length (CM.doc state)); [|reflexivity].
  by rewrite range_nonempty.
Qed.

(** The field after a transaction whose first [setSelectionHighlight]
    effect carries [null]. *)
Lemma update_clear (decorations : DecorationSet) tags rest changes state :
  update decorations
    (mkTransaction (List.map foreignEffect tags ++ setSelectionHighlight None :: rest)
                   changes state) = Some none.
Proof. unfold update. simpl. by rewrite scanEffects_foreign. Qed.

(** The field after a transaction without [setSelectionHighlight] effect
    and without changes. *)
Lemma update_idle (decorations : DecorationSet) tags state :
  update decorations (mkTransaction (List.map foreignEffect tags) [] state) =
  Some decorations.
Proof.
  unfold update. simpl.
  rewrite <- (app_nil_r (List.map foreignEffect tags)).
  by rewrite scanEffects_foreign.
Qed.

(** [update] never throws: the one call that can, [mark.range], is made
    under the test [from < to]. *)
Lemma update_total (decorations : DecorationSet) (tr : Transaction) :
  exists d, update decorations tr = Some d.
Proof.
  unfold update. generalize (effects tr) as effs.
  induction effs as [|[[[from to]|]|tag] effs IH]; simpl; eauto.
  destruct (Z.ltb_spec from to); simpl; [|eauto].
  destruct (to <=? CM.length (CM.doc (Highlight.state tr))); [|eauto].
  rewrite range_nonempty by done. eauto.
Qed.

(** C9. For a transaction whose [setSelectionHighlight] effect carries
    [{from, to}], [update] returns without exception: the set made of the
    one mark at [(from, to)] when [from < to] and [to] is at most the
    length of the transaction's document, the empty set for every other
    value of the effect. *)
Theorem C9_update_is_total_and_bounds_checked
    (decorations : DecorationSet) (tags : list nat) (from to : Z)
    (rest : list StateEffect) (changes : ChangeSet) (state : CM.EditorState) :
  let tr := mkTransaction
              (List.map foreignEffect tags
               ++ setSelectionHighlight (Some (from, to)) :: rest)
              changes state in
  (exists d, update decorations tr = Some d)
  /\ (from < to /\ to <= CM.length (CM.doc (Highlight.state tr)) ->
      update decorations tr = Some [mkRange from to selectionMark])
  /\ (~ (from < to /\ to <= CM.length (CM.doc (Highlight.state tr))) ->
      update decorations tr = Some none)
  /\ (update decorations tr = Some [mkRange from to selectionMark] ->
      from < to /\ to <= CM.length (CM.doc (Highlight.state tr))).
Proof.
  intros tr. unfold tr. rewrite update_set. simpl.
  destruct (Z.ltb_spec from to); destruct (Z.leb_spec to (CM.length (CM.doc state)));
    simpl; (split; [eauto|]); (split; [intros; (reflexivity || lia)|]);
    (split; [intros Hn; (reflexivity || (exfalso; apply Hn; lia))|]);
    intros Heq; (done || lia).
Qed.

(** C7. On a focus gain the handler returns the effect that clears the
    decoration, and the field becomes empty; on a focus loss with a
    non-empty main selection it returns the effect that sets the decoration
    to exactly [(selection.from, selection.to)]; on a focus loss with an
    empty selection it returns no effect and the field stays as it is. *)
Theorem C7_focus_transitions (others : list nat) (s : FieldState) :
  let selection := CM.main (editorState s) in
  (focusChangeHandler (editorState s) true = Some (setSelectionHighlight None)
   /\ focusChange others s true = Some (mkFieldState (editorState s) none))
  /\ (CM.empty selection = false ->
      focusChangeHandler (editorState s) false =
        Some (setSelectionHighlight (Some (CM.from selection, CM.to selection)))
      /\ focusChange others s false =
         Some (mkFieldState (editorState s)
                 (if CM.to selection <=? CM.length (CM.doc (editorState s))
                  then [mkRange (CM.from selection) (CM.to selection) selectionMark]
                  else none)))
  /\ (CM.empty selection = true ->
      focusChangeHandler (editorState s) false = None
      /\ focusChange others s false = Some s).
Proof.
  intros selection. split; [split; [reflexivity|]|split].
  - unfold focusChange. simpl.
    destruct (List.map foreignEffect others ++ [setSelectionHighlight None]) eqn:E;
      [by destruct others|].
    rewrite <- E, update_clear. reflexivity.
  - intros Hne. unfold focusChange, focusChangeHandler. fold selection.
    rewrite Hne. simpl. split; [reflexivity|].
    destruct (List.map foreignEffect others ++
              [setSelectionHighlight (Some (CM.from selection, CM.to selection))]) eqn:E;
      [by destruct others|].
    rewrite <- E, update_set. simpl.
    assert (CM.from selection < CM.to selection) as Hlt.
    { pose proof (from_le_to selection).
      destruct (Z.eq_dec (CM.from selection) (CM.to selection)) as [Heq|]; [|lia].
      apply empty_iff in Heq. congruence. }
    by destruct (Z.ltb_spec (CM.from selection) (CM.to selection)); [|lia].
  - intros He. unfold focusChange, focusChangeHandler. fold selection.
    rewrite He. simpl. split; [reflexivity|].
    destruct (List.map foreignEffect others) eqn:E; [reflexivity|].
    rewrite <- E, update_idle. simpl. by destruct s.
Qed.

End OverlayClaims.

(** ** C8: a decoration whose text is deleted *)
Section MappingClaims.
Import Highlight.





End MappingClaims.



(** A focus loss with characters 29 to 34 selected, a focus gain, and a
    focus loss with an empty selection. *)
Lemma C7_witness_blur_and_focus :
  let s := Highlight.mkFieldState (CM.state Examples.view0) Highlight.none in
  let marked := Highlight.mkFieldState (CM.state Examples.view0)
                  [Highlight.mkRange 29 34 Highlight.selectionMark] in
  let idle := Highlight.mkFieldState (CM.mkState Examples.doc0 (CM.mkRange 3 3))
                [Highlight.mkRange 1 2 Highlight.selectionMark] in
  Highlight.focusChange [] s false = Some marked
  /\ Highlight.focusChange [] marked true = Some s
  /\ Highlight.focusChangeHandler (CM.mkState Examples.doc0 (CM.mkRange 3 3)) false = None
  /\ Highlight.focusChange [] idle false = Some idle.
Proof.
  intros s marked idle.
  destruct (C7_focus_transitions [] s) as (_ & Hblur & _).
  destruct (C7_focus_transitions [] marked) as ((_ & Hgain) & _).
  destruct (C7_focus_transitions [] idle) as (_ & _ & Hidle).
  split; [exact (proj2 (Hblur eq_refl))|]. split; [exact Hgain|].
  exact (Hidle eq_refl).
Defined.

(** Effects within and beyond a document of 12 characters. *)
Lemma C9_witness_bounds :
  let st := CM.mkState ["abcdefghijkl"] (CM.mkRange 0 0) in
  let tr from to := Highlight.mkTransaction
                      [Highlight.setSelectionHighlight (Some (from, to))] [] st in
  Highlight.update [] (tr 2 12) = Some [Highlight.mkRange 2 12 Highlight.selectionMark]
  /\ Highlight.update [] (tr 2 13) = Some Highlight.none
  /\ Highlight.update [] (tr 5 5) = Some Highlight.none
  /\ Highlight.update [] (tr 9 4) = Some Highlight.none.
Proof.
  intros st tr.
  pose proof (fun from to =>
                C9_update_is_total_and_bounds_checked [] [] from to [] [] st) as H.
  split; [apply (H 2 12); split; vm_compute; [reflexivity | discriminate]|].
  split; [apply (H 2 13); intros [_ Hle]; vm_compute in Hle; by apply Hle|].
  split; [apply (H 5 5); intros [Hlt _]; vm_compute in Hlt; discriminate|].
  apply (H 9 4); intros [Hlt _]; vm_compute in Hlt; discriminate.
Defined.

(** ** Coherent ranges along a run of the manager *)
Section RunInvariant.
Import Obsidian WM.
Variable util : string -> string -> string.

Lemma emptyRange_coherent : coherent emptyRange.
Proof. by unfold coherent. Qed.

Lemma liveSource_in_store (app : App) r e f :
  liveSource app = Some (r, e, f) ->
  exists v, views app !! r = Some v /\ editor v = Some e.
Proof.
  intros L. destruct (liveSource_view app r e f L) as (v & Hv & He & _).
  exists v. split; [|exact He].
  unfold getActiveViewOfType in Hv.
  destruct (activeLeaf app) as [r'|]; simpl in Hv; [|discriminate].
  destruct (views app !! r') as [v'|] eqn:E; simpl in Hv; [|discriminate].
  destruct (isMarkdownView v'); [|discriminate]. by injection Hv as -> ->.
Qed.

(** The range of every snapshot is coherent. *)
Lemma getCurrentSelection_coherent (app : App) (wm : WorkspaceManager) cs :
  editorsAgree app -> cacheCoherent wm ->
  result (getCurrentSelection app) wm = Some cs -> coherent (snap_selection cs).
Proof.
  intros Hed Hc. unfold result.
  destruct (liveSource app) as [[[r e] f]|] eqn:L.
  - rewrite (getCurrentSelection_live app wm r e f L). simpl. intros [= <-]. simpl.
    destruct (liveSource_in_store app r e f L) as (v & Hv & He).
    apply readEditor_coherent. by apply (Hed r v e).
  - rewrite (getCurrentSelection_no_live app L).
    destruct (cachedSelectionState wm) as [c|] eqn:C.
    + rewrite (fallBackToCache_some app wm c C). simpl.
      destruct (rereadCachedView app c) as [[text range]|] eqn:R;
        intros [= <-]; simpl.
      * by apply (rereadCachedView_coherent app c text range).
      * by apply Hc.
    + by rewrite (fallBackToCache_none app wm C).
Qed.

Lemma checkAndSendSelection_editor (app : App) (wm : WorkspaceManager) :
  checkAndSendSelection util app wm = (tt, wm, [])
  \/ exists r v e, views app !! r = Some v /\ editor v = Some e
       /\ checkAndSendSelection util app wm = sendSelectionContext util app e wm.
Proof.
  unfold checkAndSendSelection.
  destruct (isSelectionInEditableNote app); simpl; [|by left].
  destruct (activeLeaf app) as [r|]; simpl; [|by left].
  destruct (views app !! r) as [v|] eqn:Hv; simpl; [|by left].
  destruct (editor v) as [e|] eqn:He; [right; by exists r, v, e | by left].
Qed.

(** One listener keeps the cache coherent and sends coherent ranges. *)
Lemma listener_coherent (app : App) (ev : WorkspaceEvent) (wm : WorkspaceManager) :
  editorsAgree app -> cacheCoherent wm ->
  cacheCoherent (after (listener util app ev) wm)
  /\ Forall (fun n => coherent (Mcp.selection (Mcp.params n)))
            (sent (listener util app ev) wm).
Proof.
  intros Hed Hc.
  assert (Ctx : cacheCoherent (after (sendCurrentFileContext util app) wm)
                /\ Forall (fun n => coherent (Mcp.selection (Mcp.params n)))
                          (sent (sendCurrentFileContext util app) wm)).
  { unfold after, sent. rewrite sendCurrentFileContext_eq. simpl.
    split; [exact Hc|]. constructor; [|constructor]. simpl.
    destruct (result (getCurrentSelection app) wm) as [cs|] eqn:E;
      [|apply emptyRange_coherent].
    pose proof (getCurrentSelection_coherent app wm cs Hed Hc E).
    destruct (snap_filePath cs) as [fp|]; [|apply emptyRange_coherent].
    destruct (truthy fp); [done|apply emptyRange_coherent]. }
  destruct ev as [| [file|] |]; simpl; try exact Ctx.
  - split; [exact Hc|constructor].
  - unfold after, sent.
    destruct (checkAndSendSelection_editor app wm) as [E | (r & v & e & Hv & He & E)];
      rewrite E; [split; [exact Hc|constructor]|].
    pose proof (readEditor_coherent e (Hed r v e Hv He)) as Hr.
    destruct (activeFile app) as [f|] eqn:Hf.
    + rewrite (sendSelectionContext_active util app wm e f Hf). simpl. split.
      * destruct (getActiveViewOfType app) as [[r' v']|]; [|exact Hc].
        intros c [= <-]. exact Hr.
      * constructor; [exact Hr|constructor].
    + unfold sendSelectionContext. rewrite Hf. simpl. split; [exact Hc|constructor].
Qed.

Lemma run_cons (app : App) (ev : WorkspaceEvent) rest (wm : WorkspaceManager) :
  after (run util ((app, ev) :: rest)) wm =
    after (run util rest) (after (listener util app ev) wm)
  /\ sent (run util ((app, ev) :: rest)) wm =
    sent (listener util app ev) wm
    ++ sent (run util rest) (after (listener util app ev) wm).
Proof.
  unfold after, sent. simpl. unfold bind.
  destruct (listener util app ev wm) as [[u wm1] out1]. simpl.
  by destruct (run util rest wm1) as [[u' wm2] out2].
Qed.

(** Along any run, from the initial manager on, every range sent to the
    sink is coherent and so is the one kept in the cache. *)
Lemma run_coherent (trace : list (App * WorkspaceEvent)) (wm : WorkspaceManager) :
  Forall (fun step => editorsAgree step.1) trace -> cacheCoherent wm ->
  cacheCoherent (after (run util trace) wm)
  /\ Forall (fun n => coherent (Mcp.selection (Mcp.params n)))
            (sent (run util trace) wm).
Proof.
  intros H. revert wm.
  induction H as [|[app ev] rest Hed _ IH]; intros wm Hc.
  - split; [exact Hc|constructor].
  - destruct (run_cons app ev rest wm) as [-> ->].
    destruct (listener_coherent app ev wm Hed Hc) as [Hc1 Hs1].
    destruct (IH _ Hc1) as [Hc2 Hs2].
    split; [exact Hc2|]. apply Forall_app. by split.
Qed.

(** Along a run in which no selection change is handled with both an
    active file and an active [MarkdownView], the cache is never written. *)
Lemma run_keeps_cache (trace : list (App * WorkspaceEvent)) (wm : WorkspaceManager) :
  Forall (fun step => step.2 <> DomSelectionChange
                      \/ activeFile step.1 = None
                      \/ getActiveViewOfType step.1 = None) trace ->
  after (run util trace) wm = wm.
Proof.
  intros H. revert wm. induction H as [|[app ev] rest Hstep _ IH]; intros wm.
  - reflexivity.
  - destruct (run_cons app ev rest wm) as [-> _].
    rewrite (listener_keeps_cache util app wm ev Hstep). apply IH.
Qed.

Lemma initial_coherent : cacheCoherent initial.
Proof. intros c H. discriminate H. Qed.

End RunInvariant.


(** * Further properties of the code *)

(** ** The gate of the selection-change listener *)
Section Gating.
Import Obsidian WM.
Variable util : string -> string -> string.

Lemma findEditorContainer_cons (e : Element) (parents : list Element) :
  findEditorContainer (e :: parents) =
  if isEditorContainer e
  then closest "workspace" (e :: parents)
       && negb (closest "modal" (e :: parents))
       && negb (closest "vertical-tab-content" (e :: parents))
  else findEditorContainer parents.
Proof. reflexivity. Qed.

(** The loop passes over the elements that are not editor containers. *)
Lemma findEditorContainer_skip (below rest : list Element) :
  Forall (fun e => isEditorContainer e = false) below ->
  findEditorContainer (below ++ rest) = findEditorContainer rest.
Proof.
  induction 1 as [|e below He _ IH]; [reflexivity|].
  change ((e :: below) ++ rest) with (e :: (below ++ rest)).
  by rewrite findEditorContainer_cons, He.
Qed.

(** The chain splits at its innermost editor container, if it has one. *)
Lemma innermost_container (chain : list Element) :
  Forall (fun e => isEditorContainer e = false) chain
  \/ exists below c above,
       chain = below ++ c :: above
       /\ Forall (fun e => isEditorContainer e = false) below
       /\ isEditorContainer c = true.
Proof.
  induction chain as [|e chain IH]; [left; constructor|].
  destruct (isEditorContainer e) eqn:He.
  - right. exists [], e, chain. repeat split; [constructor|done].
  - destruct IH as [IH | (below & c & above & -> & Hb & Hc)].
    + left. by constructor.
    + right. exists (e :: below), c, above. repeat split; [by constructor|done].
Qed.

Lemma findEditorContainer_none (chain : list Element) :
  Forall (fun e => isEditorContainer e = false) chain ->
  findEditorContainer chain = false.
Proof.
  intros H. rewrite <- (app_nil_r chain). by rewrite findEditorContainer_skip.
Qed.

Lemma closest_middle (cls : string) (inner outer : list Element) (m : Element) :
  contains m cls = true -> closest cls (inner ++ m :: outer) = true.
Proof.
  intros H. unfold closest. rewrite existsb_app. simpl.
  unfold contains in H. rewrite H. by rewrite orb_true_r.
Qed.

(** An element with no editor container above it lies at or above the
    innermost editor container of the chain. *)
Lemma container_below_or_at (below above inner outer : list Element) (c m : Element) :
  below ++ c :: above = inner ++ m :: outer ->
  isEditorContainer c = true ->
  Forall (fun e => isEditorContainer e = false) outer ->
  exists pre, c :: above = pre ++ m :: outer.
Proof.
  revert inner. induction below as [|x below IH]; intros inner E Hc Ho.
  - by exists inner.
  - destruct inner as [|y inner]; simpl in E.
    + injection E as _ E. subst outer.
      apply Forall_app in Ho as [_ Ho]. inversion Ho; congruence.
    + injection E as _ E. by apply (IH inner).
Qed.

(** The gate opens exactly when the anchor node of the window selection
    has an innermost editor container, a [.workspace] element is found
    from that container upwards, and neither a [.modal] nor a
    [.vertical-tab-content] is. *)
Theorem gate_opens_iff (app : App) :
  isSelectionInEditableNote app = true <->
  exists selection node below c above,
    windowSelection app = Some selection
    /\ rangeCount selection <> 0
    /\ anchorNode selection = Some node
    /\ elementChain node = below ++ c :: above
    /\ Forall (fun e => isEditorContainer e = false) below
    /\ isEditorContainer c = true
    /\ closest "workspace" (c :: above) = true
    /\ closest "modal" (c :: above) = false
    /\ closest "vertical-tab-content" (c :: above) = false.
Proof.
  unfold isSelectionInEditableNote. split.
  - destruct (windowSelection app) as [selection|]; [|discriminate].
    destruct (Z.eqb_spec (rangeCount selection) 0) as [|Hrc]; [discriminate|].
    destruct (anchorNode selection) as [node|] eqn:Hn; [|discriminate].
    intros H.
    assert (Hc : findEditorContainer (elementChain node) = true) by by destruct node.
    destruct (innermost_container (elementChain node))
      as [Hnone | (below & c & above & E & Hb & Hcont)].
    + by rewrite (findEditorContainer_none _ Hnone) in Hc.
    + rewrite E, (findEditorContainer_skip _ _ Hb), findEditorContainer_cons, Hcont in Hc.
      apply andb_true_iff in Hc as [Hc Hs]. apply andb_true_iff in Hc as [Hw Hm].
      exists selection, node, below, c, above.
      repeat split; try done; by apply negb_true_iff.
  - intros (selection & node & below & c & above & -> & Hrc & Hn & E & Hb & Hc & Hw & Hm & Hs).
    destruct (Z.eqb_spec (rangeCount selection) 0); [done|]. rewrite Hn.
    assert (findEditorContainer (elementChain node) = true) as H.
    { rewrite E, (findEditorContainer_skip _ _ Hb), findEditorContainer_cons, Hc.
      by rewrite Hw, Hm, Hs. }
    by destruct node.
Qed.

(** A selection anchored under a modal or a settings pane that is not
    itself inside an editor container is ignored: the selection-change
    listener sends nothing and leaves the cache as it was. *)
Theorem selection_in_dialog_is_ignored
    (app : App) (wm : WorkspaceManager) selection node inner m outer :
  windowSelection app = Some selection ->
  anchorNode selection = Some node ->
  elementChain node = inner ++ m :: outer ->
  contains m "modal" = true \/ contains m "vertical-tab-content" = true ->
  Forall (fun e => isEditorContainer e = false) outer ->
  isSelectionInEditableNote app = false
  /\ listener util app DomSelectionChange wm = (tt, wm, []).
Proof.
  intros Hs Hn E Hm Houter.
  assert (G : isSelectionInEditableNote app = false).
  { unfold isSelectionInEditableNote. rewrite Hs.
    destruct (rangeCount selection =? 0); [done|]. rewrite Hn.
    assert (findEditorContainer (elementChain node) = false) as H.
    { destruct (innermost_container (elementChain node))
        as [Hnone | (below & c & above & E' & Hb & Hc)];
        [by apply findEditorContainer_none|].
      rewrite E', (findEditorContainer_skip _ _ Hb), findEditorContainer_cons, Hc.
      rewrite E' in E.
      destruct (container_below_or_at below above inner outer c m E Hc Houter)
        as [pre ->].
      destruct Hm as [Hm | Hm]; rewrite (closest_middle _ pre outer m Hm); simpl;
        by rewrite ?andb_false_r. }
    by destruct node. }
  split; [exact G|]. simpl. unfold checkAndSendSelection. by rewrite G.
Qed.

End Gating.

(** ** What each listener sends *)
Section Broadcasts.
Import Obsidian WM.
Variable util : string -> string -> string.

Lemma checkAndSendSelection_eq (app : App) (wm : WorkspaceManager) :
  checkAndSendSelection util app wm =
  if isSelectionInEditableNote app
  then match activeEditor app with
       | Some e => sendSelectionContext util app e wm
       | None => (tt, wm, [])
       end
  else (tt, wm, []).
Proof.
  unfold checkAndSendSelection, activeEditor.
  destruct (isSelectionInEditableNote app); [|reflexivity]. simpl.
  destruct (activeLeaf app) as [r|]; simpl; [|reflexivity].
  destruct (views app !! r) as [v|]; simpl; [|reflexivity].
  by destruct (editor v).
Qed.

(** The active [MarkdownView], when there is one, is the view whose editor
    the selection-change listener reads. *)
Lemma liveSource_activeEditor (app : App) r e f :
  liveSource app = Some (r, e, f) -> activeEditor app = Some e.
Proof.
  unfold liveSource, getActiveViewOfType, activeEditor.
  destruct (activeLeaf app) as [r'|]; simpl; [|discriminate].
  destruct (views app !! r') as [v|]; simpl; [|discriminate].
  destruct (isMarkdownView v); simpl; [|discriminate].
  destruct (editor v) as [e'|]; simpl; [|discriminate].
  destruct (activeFile app); simpl; [|discriminate]. by intros [= -> -> ->].
Qed.

(** A signal gives at most one notification: a change of the active leaf
    and a file that opens give exactly one, a [file-open] without file
    gives none, and a selection change gives one when the gate is open,
    the active leaf has an editor and a file is active, none otherwise. *)
Theorem one_notification_per_signal (app : App) (wm : WorkspaceManager) :
  (exists n, sent (listener util app ActiveLeafChange) wm = [n])
  /\ (forall file, exists n, sent (listener util app (FileOpen (Some file))) wm = [n])
  /\ sent (listener util app (FileOpen None)) wm = []
  /\ (isSelectionInEditableNote app = true ->
      is_Some (activeEditor app) -> is_Some (activeFile app) ->
      exists n, sent (listener util app DomSelectionChange) wm = [n])
  /\ (isSelectionInEditableNote app = false \/ activeEditor app = None
      \/ activeFile app = None ->
      sent (listener util app DomSelectionChange) wm = []).
Proof.
  split; [|split; [|split; [|split]]].
  - unfold sent. simpl. rewrite sendCurrentFileContext_eq. by eexists.
  - intros file. unfold sent. simpl. rewrite sendCurrentFileContext_eq. by eexists.
  - reflexivity.
  - intros G [e He] [f Hf]. unfold sent. simpl.
    rewrite checkAndSendSelection_eq, G, He.
    rewrite (sendSelectionContext_active util app wm e f Hf). by eexists.
  - intros H. unfold sent. simpl. rewrite checkAndSendSelection_eq.
    destruct (isSelectionInEditableNote app); [|reflexivity].
    destruct (activeEditor app) as [e|]; [|reflexivity].
    destruct H as [H | [H | H]]; [done..|].
    by rewrite (sendSelectionContext_no_file util app wm e H).
Qed.

(** Every notification a listener sends is a JSON-RPC 2.0
    ["selection_changed"] notification whose [fileUrl] is ["file://"]
    followed by the absolute path of its [filePath], and is [null] exactly
    when the [filePath] is. *)
Theorem notifications_are_well_formed
    (app : App) (ev : WorkspaceEvent) (wm : WorkspaceManager) :
  Forall (fun n =>
            Mcp.jsonrpc n = "2.0" /\ Mcp.method n = "selection_changed"
            /\ Mcp.fileUrl (Mcp.params n) =
               (fileUrlOf util app <$> Mcp.filePath (Mcp.params n)))
         (sent (listener util app ev) wm).
Proof.
  assert (Ctx : Forall (fun n =>
            Mcp.jsonrpc n = "2.0" /\ Mcp.method n = "selection_changed"
            /\ Mcp.fileUrl (Mcp.params n) =
               (fileUrlOf util app <$> Mcp.filePath (Mcp.params n)))
         (sent (sendCurrentFileContext util app) wm)).
  { unfold sent. rewrite sendCurrentFileContext_eq. simpl.
    constructor; [|constructor]. simpl. do 2 (split; [reflexivity|]).
    unfold noSelectionParams.
    destruct (result (getCurrentSelection app) wm) as [cs|];
      [|by destruct (activeFile app)].
    destruct (snap_filePath cs) as [fp|]; [|by destruct (activeFile app)].
    destruct (truthy fp); [done|by destruct (activeFile app)]. }
  destruct ev as [| [file|] |]; simpl; try exact Ctx; [constructor|].
  unfold sent. rewrite checkAndSendSelection_eq.
  destruct (isSelectionInEditableNote app); [|constructor].
  destruct (activeEditor app) as [e|]; [|constructor].
  destruct (activeFile app) as [f|] eqn:Hf.
  - rewrite (sendSelectionContext_active util app wm e f Hf). simpl.
    by constructor; [|constructor].
  - rewrite (sendSelectionContext_no_file util app wm e Hf). constructor.
Qed.

(** When [sendSelectionContext] writes the cache, what it caches is what
    it sends: the cached text, path, URL and range are those of the
    notification, the cached view is the active [MarkdownView] and the
    timestamp is the current time. *)
Theorem cache_holds_what_was_sent (app : App) (wm : WorkspaceManager) e f r v :
  activeFile app = Some f ->
  getActiveViewOfType app = Some (r, v) ->
  exists c,
    cachedSelectionState (after (sendSelectionContext util app e) wm) = Some c
    /\ sent (sendSelectionContext util app e) wm =
       [Mcp.mkNotification "2.0" "selection_changed"
          (Mcp.mkParams (cached_text c) (Some (cached_filePath c))
                        (Some (cached_fileUrl c)) (cached_selection c))]
    /\ (cached_text c, cached_selection c) = readEditor e
    /\ writtenIn util app c.
Proof.
  intros Hf Hv. unfold after, sent.
  rewrite (sendSelectionContext_active util app wm e f Hf), Hv. simpl.
  eexists. split; [reflexivity|]. simpl. split; [reflexivity|].
  split; [by destruct (readEditor e)|].
  unfold writtenIn. simpl. rewrite Hf, Hv. repeat split. by exists r, v.
Qed.

(** With a qualifying focused view whose file has a path, a selection
    change that passes the gate and a change of the active leaf send the
    same notification: both read the same editor the same way. *)
Theorem selection_change_and_leaf_change_agree
    (app : App) (wm : WorkspaceManager) r e f :
  liveSource app = Some (r, e, f) ->
  isSelectionInEditableNote app = true ->
  path f <> "" ->
  sent (listener util app DomSelectionChange) wm =
  sent (listener util app ActiveLeafChange) wm.
Proof.
  intros L G Hp. unfold sent. simpl.
  destruct (liveSource_view app r e f L) as (v & _ & _ & Hf).
  rewrite checkAndSendSelection_eq, G, (liveSource_activeEditor app r e f L).
  rewrite (sendSelectionContext_active util app wm e f Hf).
  rewrite sendCurrentFileContext_eq. unfold result.
  rewrite (getCurrentSelection_live app wm r e f L). simpl.
  assert (truthy (path f) = true) as ->
    by (unfold truthy; by destruct (String.eqb_spec (path f) "")).
  reflexivity.
Qed.

(** With a qualifying focused view the cache is not consulted: the query
    and the notification are the same whatever the cache holds. *)
Theorem live_view_shadows_cache (app : App) (wm wm' : WorkspaceManager) r e f :
  liveSource app = Some (r, e, f) ->
  result (getCurrentSelection app) wm = result (getCurrentSelection app) wm'
  /\ sent (sendCurrentFileContext util app) wm =
     sent (sendCurrentFileContext util app) wm'.
Proof.
  intros L.
  assert (R : result (getCurrentSelection app) wm =
              result (getCurrentSelection app) wm').
  { unfold result. by rewrite !(getCurrentSelection_live app _ r e f L). }
  split; [exact R|]. unfold sent. rewrite !sendCurrentFileContext_eq. simpl.
  by rewrite R.
Qed.

(** The query answers [null] exactly when there is neither a qualifying
    focused view nor a cache; a snapshot always has a file path; and it is
    marked [fromCache] exactly when there is no qualifying focused view and
    the re-read through the cached view failed. *)
Theorem query_source_characterised (app : App) (wm : WorkspaceManager) :
  (result (getCurrentSelection app) wm = None <->
   liveSource app = None /\ cachedSelectionState wm = None)
  /\ (forall snap, result (getCurrentSelection app) wm = Some snap ->
        is_Some (snap_filePath snap)
        /\ (fromCache snap = true <->
            liveSource app = None
            /\ exists c, cachedSelectionState wm = Some c
                         /\ rereadCachedView app c = None)).
Proof.
  unfold result.
  destruct (liveSource app) as [[[r e] f]|] eqn:L.
  - rewrite (getCurrentSelection_live app wm r e f L). simpl. split.
    + split; [discriminate|]. by intros [? _].
    + intros snap [= <-]. simpl. split; [by eexists|].
      split; [discriminate|]. by intros [? _].
  - rewrite (getCurrentSelection_no_live app L).
    destruct (cachedSelectionState wm) as [c|] eqn:C.
    + rewrite (fallBackToCache_some app wm c C). simpl. split.
      * split; [discriminate|]. by intros [_ ?].
      * intros snap [= <-].
        destruct (rereadCachedView app c) as [[text range]|] eqn:R; simpl.
        -- split; [by eexists|]. split; [discriminate|].
           intros (_ & c' & [= <-] & R'). congruence.
        -- split; [by eexists|]. split; [|done]. intros _. split; [done|].
           by exists c.
    + rewrite (fallBackToCache_none app wm C). simpl. split; [done|discriminate].
Qed.

End Broadcasts.

(** ** The cache between a selection change and a later query *)
Section CacheLifeCycle.
Import Obsidian WM.
Variable util : string -> string -> string.

(** A selection cached in one workspace state is found again by a query
    made later without a qualifying focused view: as stored, marked
    [fromCache], when the cached view is gone; as the editor of that view
    now reports it, marked live, when its transaction state can be read.
    In the first case the notification repeats the stored text, path and
    range, with the URL computed anew from the stored path. *)
Theorem selection_survives_focus_loss
    (app1 app2 : App) (wm : WorkspaceManager) e f r v :
  activeFile app1 = Some f ->
  getActiveViewOfType app1 = Some (r, v) ->
  liveSource app2 = None ->
  let wm1 := after (sendSelectionContext util app1 e) wm in
  (views app2 !! r = None ->
     result (getCurrentSelection app2) wm1 =
       Some (mkSnapshot (readEditor e).1 (Some (path f)) (readEditor e).2 true)
     /\ (path f <> "" ->
         sent (sendCurrentFileContext util app2) wm1 =
           [Mcp.mkNotification "2.0" "selection_changed"
              (Mcp.mkParams (readEditor e).1 (Some (path f))
                 (Some (fileUrlOf util app2 (path f))) (readEditor e).2)]))
  /\ (forall v2 e2 text range,
        views app2 !! r = Some v2 -> editor v2 = Some e2 ->
        readTransactionState (cm e2) = Some (text, range) ->
        result (getCurrentSelection app2) wm1 =
          Some (mkSnapshot text (Some (path f)) range false)).
Proof.
  intros Hf Hv L wm1.
  assert (C : cachedSelectionState wm1 =
              Some (mkCached (readEditor e).1 (path f) (fileUrlOf util app1 (path f))
                             (readEditor e).2 (Some r) (now app1))).
  { unfold wm1, after. by rewrite (sendSelectionContext_active util app1 wm e f Hf), Hv. }
  split.
  - intros Hgone.
    assert (R : result (getCurrentSelection app2) wm1 =
              Some (mkSnapshot (readEditor e).1 (Some (path f)) (readEditor e).2 true)).
    { unfold result.
      rewrite (getCurrentSelection_no_live app2 L), (fallBackToCache_some app2 wm1 _ C).
      unfold rereadCachedView. simpl. by rewrite Hgone. }
    split; [exact R|]. intros Hp. unfold sent.
    rewrite sendCurrentFileContext_eq, R. simpl.
    assert (truthy (path f) = true) as ->
      by (unfold truthy; by destruct (String.eqb_spec (path f) "")).
    reflexivity.
  - intros v2 e2 text range Hv2 He2 Hr. unfold result.
    rewrite (getCurrentSelection_no_live app2 L), (fallBackToCache_some app2 wm1 _ C).
    unfold rereadCachedView. simpl. rewrite Hv2. simpl. rewrite He2. simpl.
    by rewrite Hr.
Qed.

(** Nothing the manager returns or sends depends on the URL or on the
    timestamp kept in the cache. *)
Theorem cached_url_and_timestamp_are_not_read
    (app : App) (ev : WorkspaceEvent) (c : CachedSelectionState)
    (url : string) (timestamp : Z) :
  let c' := mkCached (cached_text c) (cached_filePath c) url
                     (cached_selection c) (cached_view c) timestamp in
  result (getCurrentSelection app) (mkManager (Some c)) =
  result (getCurrentSelection app) (mkManager (Some c'))
  /\ sent (listener util app ev) (mkManager (Some c)) =
     sent (listener util app ev) (mkManager (Some c')).
Proof.
  intros c'.
  assert (R : result (getCurrentSelection app) (mkManager (Some c)) =
              result (getCurrentSelection app) (mkManager (Some c'))).
  { unfold result. destruct (liveSource app) as [[[r e] f]|] eqn:L.
    - by rewrite !(getCurrentSelection_live app _ r e f L).
    - rewrite (getCurrentSelection_no_live app L).
      rewrite (fallBackToCache_some app (mkManager (Some c)) c eq_refl),
              (fallBackToCache_some app (mkManager (Some c')) c' eq_refl).
      unfold rereadCachedView. simpl.
      by destruct (r ← cached_view c; v ← views app !! r; e ← editor v;
                   readTransactionState (cm e)) as [[text range]|]. }
  split; [exact R|].
  assert (Ctx : sent (sendCurrentFileContext util app) (mkManager (Some c)) =
                sent (sendCurrentFileContext util app) (mkManager (Some c'))).
  { unfold sent. rewrite !sendCurrentFileContext_eq. simpl. by rewrite R. }
  destruct ev as [| [file|] |]; simpl; try exact Ctx; [reflexivity|].
  unfold sent. rewrite !checkAndSendSelection_eq.
  destruct (isSelectionInEditableNote app); [|reflexivity].
  destruct (activeEditor app) as [e|]; [|reflexivity].
  destruct (activeFile app) as [f|] eqn:Hf.
  - by rewrite !(sendSelectionContext_active util app _ e f Hf).
  - by rewrite !(sendSelectionContext_no_file util app _ e Hf).
Qed.

Lemma cache_origin_aux (app : App) (wm : WorkspaceManager) e f r v :
  activeFile app = Some f ->
  getActiveViewOfType app = Some (r, v) ->
  exists c,
    cachedSelectionState (after (sendSelectionContext util app e) wm) = Some c
    /\ writtenIn util app c.
Proof.
  intros Hf Hv. unfold after.
  rewrite (sendSelectionContext_active util app wm e f Hf), Hv. simpl.
  eexists. split; [reflexivity|].
  unfold writtenIn. simpl. rewrite Hf, Hv. repeat split. by exists r, v.
Qed.

(** A listener leaves in the cache what was there, or a state it has just
    written for the workspace it ran in. *)
Lemma listener_cache_origin (app : App) (ev : WorkspaceEvent)
    (wm : WorkspaceManager) (c : CachedSelectionState) :
  cachedSelectionState (after (listener util app ev) wm) = Some c ->
  cachedSelectionState wm = Some c
  \/ (ev = DomSelectionChange /\ writtenIn util app c).
Proof.
  destruct ev as [| [file|] |]; simpl;
    try (unfold after; rewrite sendCurrentFileContext_eq; by left); [by left|].
  unfold after. rewrite checkAndSendSelection_eq.
  destruct (isSelectionInEditableNote app); [|by left].
  destruct (activeEditor app) as [e|]; [|by left].
  destruct (activeFile app) as [f|] eqn:Hf.
  - destruct (getActiveViewOfType app) as [[r v]|] eqn:Hv.
    + destruct (cache_origin_aux app wm e f r v Hf Hv) as (c0 & Hc0 & Hw).
      unfold after in Hc0. rewrite Hc0. intros [= <-]. by right.
    + rewrite (sendSelectionContext_active util app wm e f Hf), Hv. by left.
  - rewrite (sendSelectionContext_no_file util app wm e Hf). by left.
Qed.

(** Whatever the cache holds after the manager has run from its initial
    state was written while handling one of the selection changes of the
    run: it carries the path and URL of the file active then, a reference
    to the [MarkdownView] active then (never a null one) and the time
    then. *)
Theorem cache_was_written_by_a_selection_change
    (trace : list (App * WorkspaceEvent)) (c : CachedSelectionState) :
  cachedSelectionState (after (run util trace) initial) = Some c ->
  exists app, (app, DomSelectionChange) ∈ trace /\ writtenIn util app c.
Proof.
  assert (G : forall wm,
             cachedSelectionState (after (run util trace) wm) = Some c ->
             cachedSelectionState wm = Some c
             \/ exists app, (app, DomSelectionChange) ∈ trace /\ writtenIn util app c).
  { induction trace as [|[app ev] rest IH]; intros wm H; [by left|].
    destruct (run_cons util app ev rest wm) as [E _]. rewrite E in H.
    destruct (IH _ H) as [H1 | (app' & Hin & Hw)].
    - destruct (listener_cache_origin app ev wm c H1) as [? | [-> Hw]]; [by left|].
      right. exists app. split; [left|done].
    - right. exists app'. split; [by right|done]. }
  intros H. by destruct (G initial H) as [?|?].
Qed.

End CacheLifeCycle.

(** ** The overlay across a loss and a return of focus *)
Section OverlayLifeCycle.
Import Highlight.

Lemma focusChange_gain (others : list nat) (s : FieldState) :
  focusChange others s true = Some (mkFieldState (editorState s) none).
Proof.
  unfold focusChange. simpl.
  destruct (List.map foreignEffect others ++ [setSelectionHighlight None]) eqn:E;
    [by destruct others|].
  by rewrite <- E, update_clear.
Qed.

Lemma focusChange_loss (others : list nat) (s : FieldState) :
  let selection := CM.main (editorState s) in
  focusChange others s false =
  Some (if CM.empty selection then s
        else mkFieldState (editorState s)
               (if CM.to selection <=? CM.length (CM.doc (editorState s))
                then [mkRange (CM.from selection) (CM.to selection) selectionMark]
                else none)).
Proof.
  intros selection. unfold focusChange, focusChangeHandler. fold selection.
  destruct (CM.empty selection) eqn:He; simpl.
  - destruct (List.map foreignEffect others) eqn:E; [reflexivity|].
    rewrite <- E, update_idle. simpl. by destruct s.
  - destruct (List.map foreignEffect others ++
              [setSelectionHighlight (Some (CM.from selection, CM.to selection))]) eqn:E;
      [by destruct others|].
    rewrite <- E, update_set. simpl.
    assert (CM.from selection < CM.to selection) as Hlt.
    { pose proof (from_le_to selection).
      destruct (Z.eq_dec (CM.from selection) (CM.to selection)) as [Heq|]; [|lia].
      apply empty_iff in Heq. congruence. }
    by destruct (Z.ltb_spec (CM.from selection) (CM.to selection)); [|lia].
Qed.

(** A loss of focus always succeeds and leaves the editor state alone;
    a return of focus right after it clears the field, and a second loss
    of focus changes nothing more. *)
Theorem focus_loss_then_return (others1 others2 others3 : list nat) (s : FieldState) :
  exists s1,
    focusChange others1 s false = Some s1
    /\ editorState s1 = editorState s
    /\ focusChange others2 s1 true = Some (mkFieldState (editorState s) none)
    /\ focusChange others3 s1 false = Some s1.
Proof.
  rewrite focusChange_loss.
  destruct (CM.empty (CM.main (editorState s))) eqn:He.
  - exists s. split; [reflexivity|]. split; [reflexivity|].
    split; [apply focusChange_gain|]. by rewrite focusChange_loss, He.
  - eexists. split; [reflexivity|]. simpl. split; [reflexivity|].
    split; [by rewrite focusChange_gain|].
    rewrite focusChange_loss. simpl. by rewrite He.
Qed.

(** The overlay and the tracker agree: when the transaction-state read of
    an editor reports a non-empty selection, a loss of focus in that state
    marks exactly the offsets whose text the read reported; when it
    reports an empty one, the field is left as it was. *)
Theorem mark_covers_the_reported_text
    (v : CM.EditorView) (d : DecorationSet) (others : list nat)
    (text : string) (range : Mcp.SelectionRange) :
  let st := CM.state v in
  let selection := CM.main st in
  WM.readTransactionState (Some v) = Some (text, range) ->
  (Mcp.isEmpty range = false ->
     focusChange others (mkFieldState st d) false =
       Some (mkFieldState st
               [mkRange (CM.from selection) (CM.to selection) selectionMark])
     /\ text = CM.sliceString (CM.doc st) (CM.from selection) (CM.to selection))
  /\ (Mcp.isEmpty range = true ->
      focusChange others (mkFieldState st d) false = Some (mkFieldState st d)
      /\ text = "").
Proof.
  intros st selection. unfold WM.readTransactionState. simpl. fold st selection.
  destruct (CM.lineAt (CM.doc st) (CM.from selection)) as [L1|]; [|discriminate].
  destruct (CM.lineAt (CM.doc st) (CM.to selection)) as [L2|] eqn:E2; [|discriminate].
  simpl. intros [= <- <-].
  assert (Hlen : CM.to selection <= CM.length (CM.doc st)).
  { unfold CM.lineAt in E2.
    destruct (Z.ltb_spec (CM.to selection) 0); [discriminate|].
    destruct (Z.ltb_spec (CM.length (CM.doc st)) (CM.to selection)); [discriminate|lia]. }
  rewrite focusChange_loss. simpl. fold st selection.
  destruct (CM.empty selection); simpl.
  - split; [discriminate|done].
  - split; [|discriminate]. intros _.
    by destruct (Z.leb_spec (CM.to selection) (CM.length (CM.doc st))); [|lia].
Qed.

End OverlayLifeCycle.

(** ** The further properties on the example workspaces *)

Lemma example_editors_agree (app : Obsidian.App) :
  Obsidian.views app =
    <[1%nat := Examples.note0]> (<[2%nat := Examples.panel0]> ∅) ->
  WM.editorsAgree app.
Proof.
  intros E r v e Hv He. rewrite E in Hv.
  destruct (decide (r = 1%nat)) as [->|N1].
  - rewrite lookup_insert_eq in Hv. injection Hv as <-. injection He as <-.
    intros H. exfalso. by apply H.
  - rewrite lookup_insert_ne in Hv by done.
    destruct (decide (r = 2%nat)) as [->|N2].
    + rewrite lookup_insert_eq in Hv. injection Hv as <-. discriminate He.
    + rewrite lookup_insert_ne in Hv by done. by rewrite lookup_empty in Hv.
Qed.

(** The selection in the note's editor opens the gate. *)
Lemma gate_opens_iff_witness :
  exists selection node below c above,
    Obsidian.windowSelection Examples.appSelecting = Some selection
    /\ Obsidian.rangeCount selection <> 0
    /\ Obsidian.anchorNode selection = Some node
    /\ WM.elementChain node = below ++ c :: above
    /\ Forall (fun e => WM.isEditorContainer e = false) below
    /\ WM.isEditorContainer c = true
    /\ Obsidian.closest "workspace" (c :: above) = true
    /\ Obsidian.closest "modal" (c :: above) = false
    /\ Obsidian.closest "vertical-tab-content" (c :: above) = false.
Proof. exact (proj1 (gate_opens_iff Examples.appSelecting) eq_refl). Defined.

(** The selection in an editor shown in a modal is ignored. *)
Lemma selection_in_dialog_is_ignored_witness :
  WM.isSelectionInEditableNote Examples.appModal = false
  /\ WM.listener Examples.joinPath Examples.appModal WM.DomSelectionChange
                 WM.initial = (tt, WM.initial, []).
Proof.
  refine (selection_in_dialog_is_ignored Examples.joinPath Examples.appModal
            WM.initial Examples.domInModal
            (Obsidian.OtherNode [Obsidian.mkElement ["cm-line"];
                                 Obsidian.mkElement ["cm-editor"];
                                 Obsidian.mkElement ["modal"];
                                 Obsidian.mkElement ["workspace"]])
            [Obsidian.mkElement ["cm-line"]; Obsidian.mkElement ["cm-editor"]]
            (Obsidian.mkElement ["modal"]) [Obsidian.mkElement ["workspace"]]
            eq_refl eq_refl eq_refl (or_introl eq_refl) _).
  repeat constructor.
Defined.

(** A selection change in the note gives one notification. *)
Lemma one_notification_per_signal_witness :
  exists n, WM.sent (WM.listener Examples.joinPath Examples.appSelecting
                       WM.DomSelectionChange) WM.initial = [n].
Proof.
  refine (proj1 (proj2 (proj2 (proj2 (one_notification_per_signal Examples.joinPath
            Examples.appSelecting WM.initial)))) eq_refl _ _); by eexists.
Defined.

(** The selection change in the note caches what it sends. *)
Lemma cache_holds_what_was_sent_witness :
  exists c,
    WM.cachedSelectionState
      (WM.after (WM.sendSelectionContext Examples.joinPath Examples.appSelecting
                   Examples.editor0) WM.initial) = Some c
    /\ WM.sent (WM.sendSelectionContext Examples.joinPath Examples.appSelecting
                  Examples.editor0) WM.initial =
       [Mcp.mkNotification "2.0" "selection_changed"
          (Mcp.mkParams (WM.cached_text c) (Some (WM.cached_filePath c))
                        (Some (WM.cached_fileUrl c)) (WM.cached_selection c))]
    /\ (WM.cached_text c, WM.cached_selection c) = WM.readEditor Examples.editor0
    /\ WM.writtenIn Examples.joinPath Examples.appSelecting c.
Proof.
  exact (cache_holds_what_was_sent Examples.joinPath Examples.appSelecting
           WM.initial Examples.editor0 Examples.file0 1%nat Examples.note0
           eq_refl eq_refl).
Defined.

Lemma selection_change_and_leaf_change_agree_witness :
  WM.sent (WM.listener Examples.joinPath Examples.appSelecting WM.DomSelectionChange)
          WM.initial =
  WM.sent (WM.listener Examples.joinPath Examples.appSelecting WM.ActiveLeafChange)
          WM.initial.
Proof.
  refine (selection_change_and_leaf_change_agree Examples.joinPath
            Examples.appSelecting WM.initial 1%nat Examples.editor0 Examples.file0
            eq_refl eq_refl _).
  discriminate.
Defined.

(** The note is focused: an older cache changes nothing. *)
Lemma live_view_shadows_cache_witness :
  WM.result (WM.getCurrentSelection Examples.appEditing) WM.initial =
  WM.result (WM.getCurrentSelection Examples.appEditing)
            (WM.mkManager (Some Examples.stale0))
  /\ WM.sent (WM.sendCurrentFileContext Examples.joinPath Examples.appEditing)
             WM.initial =
     WM.sent (WM.sendCurrentFileContext Examples.joinPath Examples.appEditing)
             (WM.mkManager (Some Examples.stale0)).
Proof.
  exact (live_view_shadows_cache Examples.joinPath Examples.appEditing WM.initial
           (WM.mkManager (Some Examples.stale0)) 1%nat Examples.editor0
           Examples.file0 eq_refl).
Defined.

(** A selection in the note, then a query once the note is closed, and a
    query while the note is still open behind the side panel. *)
Lemma selection_survives_focus_loss_witness :
  let wm1 := WM.after (WM.sendSelectionContext Examples.joinPath
                         Examples.appSelecting Examples.editor0) WM.initial in
  WM.result (WM.getCurrentSelection Examples.appClosed) wm1 =
    Some (WM.mkSnapshot "d par" (Some "notes/today.md") Examples.range0 true)
  /\ WM.result (WM.getCurrentSelection Examples.appPanel) wm1 =
    Some (WM.mkSnapshot "d par" (Some "notes/today.md") Examples.range0 false).
Proof.
  intros wm1. split.
  - exact (proj1 (proj1 (selection_survives_focus_loss Examples.joinPath
             Examples.appSelecting Examples.appClosed WM.initial Examples.editor0
             Examples.file0 1%nat Examples.note0 eq_refl eq_refl eq_refl) eq_refl)).
  - exact (proj2 (selection_survives_focus_loss Examples.joinPath
             Examples.appSelecting Examples.appPanel WM.initial Examples.editor0
             Examples.file0 1%nat Examples.note0 eq_refl eq_refl eq_refl)
             Examples.note0 Examples.editor0 "d par" Examples.range0
             eq_refl eq_refl eq_refl).
Defined.

(** A selection in the note, then a switch to the side panel: the cache
    holds what the selection change wrote. *)
Lemma cache_was_written_by_a_selection_change_witness :
  exists app,
    (app, WM.DomSelectionChange) ∈
      [(Examples.appSelecting, WM.DomSelectionChange);
       (Examples.appPanel, WM.ActiveLeafChange)]
    /\ WM.writtenIn Examples.joinPath app Examples.cached0.
Proof.
  exact (cache_was_written_by_a_selection_change Examples.joinPath
           [(Examples.appSelecting, WM.DomSelectionChange);
            (Examples.appPanel, WM.ActiveLeafChange)]
           Examples.cached0 eq_refl).
Defined.

Lemma run_coherent_witness :
  let trace := [(Examples.appSelecting, WM.DomSelectionChange);
                (Examples.appPanel, WM.ActiveLeafChange)] in
  WM.cacheCoherent (WM.after (WM.run Examples.joinPath trace) WM.initial)
  /\ Forall (fun n => WM.coherent (Mcp.selection (Mcp.params n)))
            (WM.sent (WM.run Examples.joinPath trace) WM.initial).
Proof.
  intros trace.
  refine (run_coherent Examples.joinPath trace WM.initial _ (initial_coherent)).
  repeat constructor; simpl; by apply example_editors_agree.
Defined.

(** A selection change while the side panel is active and a change of the
    active leaf do not write the cache. *)
Lemma run_keeps_cache_witness :
  WM.after (WM.run Examples.joinPath
              [(Examples.appPanel, WM.DomSelectionChange);
               (Examples.appEditing, WM.ActiveLeafChange)])
           (WM.mkManager (Some Examples.stale0)) =
  WM.mkManager (Some Examples.stale0).
Proof.
  refine (run_keeps_cache Examples.joinPath _ _ _).
  constructor; [|constructor; [|constructor]]; simpl.
  - right. right. reflexivity.
  - left. discriminate.
Defined.

(** The text the tracker reports for the note and the mark a loss of focus
    puts on it. *)
Lemma mark_covers_the_reported_text_witness :
  Highlight.focusChange [] (Highlight.mkFieldState (CM.state Examples.view0) []) false =
    Some (Highlight.mkFieldState (CM.state Examples.view0)
            [Highlight.mkRange 29 34 Highlight.selectionMark])
  /\ "d par" = CM.sliceString Examples.doc0 29 34.
Proof.
  exact (proj1 (mark_covers_the_reported_text Examples.view0 [] [] "d par"
                  Examples.range0 eq_refl) eq_refl).
Defined.
